(** * The feedback store of open-webui: [backend/open_webui/models/feedbacks.py]

    A shallow embedding of [FeedbackTable] (create, read, update and delete of
    feedback rows, and the conversation-memory side effect of a positive
    rating) together with the properties its specification states.

    Layout: JSON values and the Python operations the code applies to them;
    the pydantic forms and their [model_dump]; the database session; the
    operations of [FeedbackTable]; then the theorems. *)

From stdpp Require Import gmap strings list sorting pretty.

Open Scope string_scope.
Open Scope Z_scope.

(** ** Exceptions and results *)

(** The exception classes that the modelled code can meet. *)
Inductive exn :=
| ValidationError   (* pydantic: a field of the wrong type *)
| KeyError
| TypeError
| AttributeError
| IndexError
| IntegrityError    (* primary key already present *)
| DataError         (* a value that does not fit its column *)
| DBAPIError        (* any other failure of the database driver *)
| PipelineError.    (* any failure inside the retrieval pipeline *)

(** A Python expression either evaluates to a value or raises. *)
Inductive result (A : Type) :=
| Ok (a : A)
| Raise (e : exn).
Arguments Ok {A} a.
Arguments Raise {A} e.

#[global] Instance result_ret : MRet result := @Ok.
#[global] Instance result_bind : MBind result := λ A B f m,
  match m with
  | Ok a => f a
  | Raise e => Raise e
  end.

(** ** JSON values

    The payloads ([data], [meta], [snapshot]) are JSON documents held in
    Python [dict]s. Numbers are the integers (a JSON float has no
    counterpart here); a [dict] is the list of its items in insertion order,
    its keys pairwise distinct. *)
#[local] Unset Elimination Schemes.
Inductive json :=
| JNull
| JBool (b : bool)
| JNum (n : Z)
| JStr (s : string)
| JList (l : list json)
| JObj (d : list (string * json)).
#[local] Set Elimination Schemes.

Abbreviation dict := (list (string * json)).

(** [d.get(k)] as an option; [None] when the key is missing. *)
Fixpoint dict_get (k : string) (d : dict) : option json :=
  match d with
  | [] => None
  | (k', v) :: d' => if String.eqb k k' then Some v else dict_get k d'
  end.

(** [d[k] = v]: overwrite in place, or append a new item. *)
Fixpoint dict_set (k : string) (v : json) (d : dict) : dict :=
  match d with
  | [] => [(k, v)]
  | (k', v') :: d' =>
      if String.eqb k k' then (k', v) :: d' else (k', v') :: dict_set k v d'
  end.

(** [{**d1, **d2}]: the items of [d2] are written over [d1], left to right. *)
Definition dict_update (d1 d2 : dict) : dict :=
  foldl (λ acc kv, dict_set kv.1 kv.2 acc) d1 d2.

(** Python truthiness, as tested by [if x] and [x and y]. *)
Definition truthy (j : json) : bool :=
  match j with
  | JNull => false
  | JBool b => b
  | JNum n => negb (n =? 0)
  | JStr s => negb (String.eqb s "")
  | JList l => match l with [] => false | _ => true end
  | JObj d => match d with [] => false | _ => true end
  end.

(** Truthiness of an [Optional[dict]] attribute. *)
Definition truthy_dict (o : option dict) : bool :=
  match o with
  | Some (_ :: _) => true
  | _ => false
  end.

(** Python [==] on JSON values: [bool] is a subclass of [int], so [True == 1];
    lists compare element by element, dicts as mappings. *)
Fixpoint py_eq (a b : json) {struct a} : bool :=
  match a, b with
  | JNull, JNull => true
  | JBool x, JBool y => Bool.eqb x y
  | JBool x, JNum n => Z.b2z x =? n
  | JNum n, JBool y => n =? Z.b2z y
  | JNum m, JNum n => m =? n
  | JStr s, JStr t => String.eqb s t
  | JList l, JList l' =>
      (fix go (l l' : list json) : bool :=
         match l, l' with
         | [], [] => true
         | x :: xs, y :: ys => py_eq x y && go xs ys
         | _, _ => false
         end) l l'
  | JObj d, JObj d' =>
      (length d =? length d')%nat &&
      (fix go (d : dict) : bool :=
         match d with
         | [] => true
         | (k, v) :: rest =>
             match dict_get k d' with
             | Some v' => py_eq v v' && go rest
             | None => false
             end
         end) d
  | _, _ => false
  end.

(** Lists and dicts are unhashable. *)
Definition hashable (j : json) : bool :=
  match j with
  | JList _ | JObj _ => false
  | _ => true
  end.

(** [sub in s] for two strings. *)
Fixpoint is_substring (sub s : string) : bool :=
  String.prefix sub s ||
  match s with
  | EmptyString => false
  | String _ s' => is_substring sub s'
  end.

(** [key in container]. A dict tests its keys (all of them strings), a list
    its elements with [==], a string its substrings; anything else is not
    iterable. *)
Definition py_contains (key container : json) : result bool :=
  match container with
  | JObj d =>
      if hashable key then
        match key with
        | JStr k => Ok (bool_decide (is_Some (dict_get k d)))
        | _ => Ok false
        end
      else Raise TypeError
  | JList l => Ok (existsb (λ x, py_eq x key) l)
  | JStr s =>
      match key with
      | JStr k => Ok (is_substring k s)
      | _ => Raise TypeError
      end
  | _ => Raise TypeError
  end.

(** An integer used as a sequence index: negative indices count from the
    end. *)
Definition seq_index {A} (l : list A) (i : Z) : result A :=
  let n := Z.of_nat (length l) in
  let i' := if i <? 0 then i + n else i in
  if (i' <? 0) || (n <=? i') then Raise IndexError
  else match l !! Z.to_nat i' with
       | Some x => Ok x
       | None => Raise IndexError
       end.

(** [container[key]]. A string is indexed by code unit. *)
Definition py_getitem (container key : json) : result json :=
  match container with
  | JObj d =>
      if hashable key then
        match key with
        | JStr k =>
            match dict_get k d with
            | Some v => Ok v
            | None => Raise KeyError
            end
        | _ => Raise KeyError
        end
      else Raise TypeError
  | JList l =>
      match key with
      | JNum i => seq_index l i
      | JBool b => seq_index l (Z.b2z b)
      | _ => Raise TypeError
      end
  | JStr s =>
      match key with
      | JNum i => c ← seq_index (String.list_ascii_of_string s) i; Ok (JStr (String c ""))
      | JBool b =>
          c ← seq_index (String.list_ascii_of_string s) (Z.b2z b); Ok (JStr (String c ""))
      | _ => Raise TypeError
      end
  | _ => Raise TypeError
  end.

(** [obj.get(k)]: only a dict has the method. *)
Definition py_get (obj : json) (k : string) : result json :=
  match obj with
  | JObj d => Ok (default JNull (dict_get k d))
  | _ => Raise AttributeError
  end.

(** ** The runtime and the environment of one call

    What the code takes from outside [feedbacks.py]: two coercions of the
    Python libraries, and what one call of an operation observes of the
    world (the identifier drawn, the clock, which external call fails). *)

(** The calls made on the database session. *)
Inductive db_call := DbQuery | DbAdd | DbDelete | DbCommit | DbRefresh.

#[global] Instance db_call_eq_dec : EqDecision db_call.
Proof. solve_decision. Defined.

(** The calls made on the retrieval pipeline. *)
Inductive pipeline_call := PipelineInit | PipelineAddText.

Record Env := {
  (** [str(uuid.uuid4())] *)
  uuid4 : string;
  (** [int(time.time())] at the n-th reading of the clock within the call:
      seconds since the epoch, taken to fit a [BigInteger] column *)
  time_time : nat → Z;
  (** the session call that raises, if one does *)
  db_fault : option db_call;
  (** the pipeline call that raises, if one does *)
  pipeline_fault : option pipeline_call;
  (** pydantic's lax reading of a string as an [int] field *)
  str_as_int : string → option Z;
  (** [repr] of a list or of a dict *)
  py_repr : json → string
}.

Definition db_raises (env : Env) (c : db_call) : bool :=
  bool_decide (db_fault env = Some c).

(** [str(x)], as an f-string formats a value. *)
Definition py_str (env : Env) (j : json) : string :=
  match j with
  | JNull => "None"
  | JBool true => "True"
  | JBool false => "False"
  | JNum n => pretty n
  | JStr s => s
  | JList _ | JObj _ => py_repr env j
  end.

(** ** Forms *)

(** [RatingData]: the declared fields, then the extra ones
    ([extra="allow"]). An extra item never carries the name of a declared
    field. *)
Record RatingData := {
  rating : option (string + Z);
  model_id : option string;
  sibling_model_ids : option (list string);
  reason : option string;
  comment : option string;
  rating_extra : dict
}.

Record SnapshotData := {
  chat : option dict;
  snapshot_extra : dict
}.

Record FeedbackForm := {
  type : string;
  data : option RatingData;
  meta : option dict;
  snapshot : option SnapshotData;
  extra : dict
}.

Definition dump_opt {A} (f : A → json) (o : option A) : json :=
  match o with
  | Some a => f a
  | None => JNull
  end.

Definition dump_rating (r : string + Z) : json :=
  match r with
  | inl s => JStr s
  | inr n => JNum n
  end.

(** [model_dump()] of the three form classes: declared fields in order, then
    the extra items. *)
Definition RatingData_model_dump (r : RatingData) : dict :=
  dict_update
    [("rating", dump_opt dump_rating (rating r));
     ("model_id", dump_opt JStr (model_id r));
     ("sibling_model_ids", dump_opt (λ l, JList (JStr <$> l)) (sibling_model_ids r));
     ("reason", dump_opt JStr (reason r));
     ("comment", dump_opt JStr (comment r))]
    (rating_extra r).

Definition SnapshotData_model_dump (s : SnapshotData) : dict :=
  dict_update [("chat", dump_opt JObj (chat s))] (snapshot_extra s).

Definition FeedbackForm_model_dump (f : FeedbackForm) : dict :=
  dict_update
    [("type", JStr (type f));
     ("data", dump_opt (λ r, JObj (RatingData_model_dump r)) (data f));
     ("meta", dump_opt JObj (meta f));
     ("snapshot", dump_opt (λ s, JObj (SnapshotData_model_dump s)) (snapshot f))]
    (extra f).

(** ** The record: table row and pydantic view *)

(** A row of table [feedback]. The three integer columns are [BigInteger];
    the database checks the range of [version], the one of them that a form
    can set, when the row is inserted (see [apply_change]). *)
Record Feedback := {
  f_id : string;
  f_user_id : string;
  f_version : Z;
  f_type : string;
  f_data : option dict;
  f_meta : option dict;
  f_snapshot : option dict;
  f_created_at : Z;
  f_updated_at : Z
}.

Record FeedbackModel := {
  m_id : string;
  m_user_id : string;
  m_version : Z;
  m_type : string;
  m_data : option dict;
  m_meta : option dict;
  m_snapshot : option dict;
  m_created_at : Z;
  m_updated_at : Z
}.

(** The row built from the keyword arguments [feedback.model_dump()]. *)
Definition Feedback_of_model (m : FeedbackModel) : Feedback :=
  {| f_id := m_id m; f_user_id := m_user_id m; f_version := m_version m;
     f_type := m_type m; f_data := m_data m; f_meta := m_meta m;
     f_snapshot := m_snapshot m;
     f_created_at := m_created_at m; f_updated_at := m_updated_at m |}.

(** [FeedbackModel.model_validate(row)], reading the attributes of a row. *)
Definition model_validate (r : Feedback) : FeedbackModel :=
  {| m_id := f_id r; m_user_id := f_user_id r; m_version := f_version r;
     m_type := f_type r; m_data := f_data r; m_meta := f_meta r;
     m_snapshot := f_snapshot r;
     m_created_at := f_created_at r; m_updated_at := f_updated_at r |}.

(** pydantic's validation of the fields of [FeedbackModel] from keyword
    arguments: a missing key or a value of the wrong type is a
    [ValidationError]. *)
Definition field_str (k : string) (kw : dict) : result string :=
  match dict_get k kw with
  | Some (JStr s) => Ok s
  | _ => Raise ValidationError
  end.

Definition field_int (env : Env) (k : string) (kw : dict) : result Z :=
  match dict_get k kw with
  | Some (JNum n) => Ok n
  | Some (JBool b) => Ok (Z.b2z b)
  | Some (JStr s) =>
      match str_as_int env s with
      | Some n => Ok n
      | None => Raise ValidationError
      end
  | _ => Raise ValidationError
  end.

Definition field_opt_dict (k : string) (kw : dict) : result (option dict) :=
  match dict_get k kw with
  | None | Some JNull => Ok None
  | Some (JObj d) => Ok (Some d)
  | _ => Raise ValidationError
  end.

(** [FeedbackModel] built from keyword arguments [kw]; keys that name no
    field are ignored. *)
Definition FeedbackModel_init (env : Env) (kw : dict) : result FeedbackModel :=
  id ← field_str "id" kw;
  user_id ← field_str "user_id" kw;
  version ← field_int env "version" kw;
  type ← field_str "type" kw;
  data ← field_opt_dict "data" kw;
  meta ← field_opt_dict "meta" kw;
  snapshot ← field_opt_dict "snapshot" kw;
  created_at ← field_int env "created_at" kw;
  updated_at ← field_int env "updated_at" kw;
  Ok {| m_id := id; m_user_id := user_id; m_version := version;
        m_type := type; m_data := data; m_meta := meta;
        m_snapshot := snapshot;
        m_created_at := created_at; m_updated_at := updated_at |}.

(** ** The database session

    Table [feedback] maps the primary key to its row. A session works on the
    committed table and keeps the changes made since the last commit; they
    reach the table on [commit] and are dropped when the [with] block of
    [get_db()] is left. *)
Inductive change :=
| Insert (r : Feedback)   (* [db.add(r)] *)
| Update (r : Feedback)   (* attributes of a loaded row were assigned *)
| Delete (k : string).    (* [db.delete(r)] *)

Record Session := {
  store : gmap string Feedback;
  pending : list change
}.

Definition DB (A : Type) : Type := Session → result A * Session.

#[global] Instance DB_ret : MRet DB := λ A a s, (Ok a, s).
#[global] Instance DB_bind : MBind DB := λ A B f m s,
  match m s with
  | (Ok a, s') => f a s'
  | (Raise e, s') => (Raise e, s')
  end.

(** [with get_db() as db: body]: the result of the body and the table it
    leaves behind. *)
Definition with_get_db {A} (t : gmap string Feedback) (body : DB A)
  : result A * gmap string Feedback :=
  let '(r, s) := body {| store := t; pending := [] |} in (r, store s).

Definition db_stage (c : change) : DB () := λ s,
  (Ok (), {| store := store s; pending := pending s ++ [c] |}).

(** The range of a [BigInteger] column: signed, 64 bits. *)
Definition fits_bigint (n : Z) : bool :=
  (- 2 ^ 63 <=? n) && (n <? 2 ^ 63).

(** One statement of the flush that a commit performs. The values of an
    [INSERT] are bound before it runs, and a version outside the range of its
    column cannot be bound; an [UPDATE] carries only the attributes assigned,
    the version never among them. *)
Definition apply_change (t : gmap string Feedback) (c : change)
  : result (gmap string Feedback) :=
  match c with
  | Insert r =>
      if fits_bigint (f_version r) then
        match t !! f_id r with
        | Some _ => Raise IntegrityError
        | None => Ok (<[f_id r := r]> t)
        end
      else Raise DataError
  | Update r =>
      match t !! f_id r with
      | Some _ => Ok (<[f_id r := r]> t)
      | None => Raise DBAPIError
      end
  | Delete k => Ok (delete k t)
  end.

Fixpoint flush (t : gmap string Feedback) (cs : list change)
  : result (gmap string Feedback) :=
  match cs with
  | [] => Ok t
  | c :: cs' => t' ← apply_change t c; flush t' cs'
  end.

(** [db.query(Feedback).filter_by(id=id).first()] *)
Definition db_first_by_id (env : Env) (id : string) : DB (option Feedback) := λ s,
  if db_raises env DbQuery then (Raise DBAPIError, s)
  else (Ok (store s !! id), s).

(** [db.query(Feedback).filter_by(id=id, user_id=user_id).first()] *)
Definition db_first_by_id_and_user_id (env : Env) (id user_id : string)
  : DB (option Feedback) := λ s,
  if db_raises env DbQuery then (Raise DBAPIError, s)
  else (Ok (match store s !! id with
            | Some r => if String.eqb (f_user_id r) user_id then Some r else None
            | None => None
            end), s).

(** [db.query(Feedback).filter_by(...).all()], [p] being the filter. *)
Definition db_all (env : Env) (p : Feedback → bool) : DB (list Feedback) := λ s,
  if db_raises env DbQuery then (Raise DBAPIError, s)
  else (Ok (filter (λ r, p r = true) (snd <$> map_to_list (store s))), s).

(** [.order_by(Feedback.updated_at.desc())]; rows of equal [updated_at] keep
    the order the sort leaves them in. *)
Definition updated_at_desc (a b : Feedback) : Prop :=
  f_updated_at b ≤ f_updated_at a.

#[global] Instance updated_at_desc_dec a b : Decision (updated_at_desc a b).
Proof. unfold updated_at_desc. apply _. Defined.

Definition order_by_updated_at_desc (l : list Feedback) : list Feedback :=
  merge_sort updated_at_desc l.

Definition db_add (env : Env) (r : Feedback) : DB () := λ s,
  if db_raises env DbAdd then (Raise DBAPIError, s)
  else db_stage (Insert r) s.

Definition db_delete (env : Env) (r : Feedback) : DB () := λ s,
  if db_raises env DbDelete then (Raise DBAPIError, s)
  else db_stage (Delete (f_id r)) s.

(** [db.commit()]: all pending changes reach the table, or none does. *)
Definition db_commit (env : Env) : DB () := λ s,
  if db_raises env DbCommit
  then (Raise DBAPIError, {| store := store s; pending := [] |})
  else match flush (store s) (pending s) with
       | Ok t => (Ok (), {| store := t; pending := [] |})
       | Raise e => (Raise e, {| store := store s; pending := [] |})
       end.

(** [db.refresh(r)]: the row is read back by its primary key. *)
Definition db_refresh (env : Env) (r : Feedback) : DB Feedback := λ s,
  if db_raises env DbRefresh then (Raise DBAPIError, s)
  else match store s !! f_id r with
       | Some r' => (Ok r', s)
       | None => (Raise DBAPIError, s)
       end.

(** ** The conversation-memory side effect *)

(** One call of [pipe.add_text]. *)
Record add_text_call := {
  text : string;
  collection_name : string;
  metadata : dict
}.

Definition newline : string := String (Ascii.ascii_of_nat 10) "".

(** The condition of lines 123-130: a chain of [and] over attributes of the
    form; none of its tests can raise. *)
Definition positive_feedback (f : FeedbackForm) : bool :=
  match data f with
  | None => false
  | Some d =>
      bool_decide (rating d = Some (inr 1)) &&
      match snapshot f with
      | None => false
      | Some s =>
          truthy_dict (chat s) &&
          truthy_dict (meta f) &&
          match meta f with
          | Some m => truthy (default JNull (dict_get "message_id" m))
          | None => false
          end
      end
  end.

(** Lines 131-142: the excerpt to store, [None] when a message is not found;
    a lookup that fails raises. *)
Definition conversation_excerpt (env : Env) (user_id : string) (f : FeedbackForm)
  : result (option add_text_call) :=
  match snapshot f ≫= chat, meta f with
  | Some chat_d, Some meta_d =>
      chat_history ← py_getitem (JObj chat_d) (JStr "history");
      message_id ← py_getitem (JObj meta_d) (JStr "message_id");
      messages ← py_getitem chat_history (JStr "messages");
      found ← py_contains message_id messages;
      if found : bool then
        response_message ← py_getitem messages message_id;
        user_message_id ← py_get response_message "parentId";
        found' ← (if truthy user_message_id
                  then py_contains user_message_id messages else Ok false);
        if found' : bool then
          user_message ← py_getitem messages user_message_id;
          user_content ← py_getitem user_message (JStr "content");
          response_content ← py_getitem response_message (JStr "content");
          Ok (Some {|
            text := "User: " ++ py_str env user_content ++ newline ++
                    "Assistant: " ++ py_str env response_content;
            collection_name := "conversation_memory_" ++ user_id;
            metadata := [("source", JStr "feedback"); ("message_id", message_id)]
          |})
        else Ok None
      else Ok None
  | _, _ => Ok None
  end.

(** Lines 123-155: the calls of [add_text] made, and whether the block ran to
    its end or raised. The pipeline is built first and may fail to build;
    what it is built from and what is logged leave no trace here. *)
Definition conversation_memory (env : Env) (user_id : string) (f : FeedbackForm)
  : list add_text_call * result () :=
  if positive_feedback f then
    match conversation_excerpt env user_id f with
    | Raise e => ([], Raise e)
    | Ok None => ([], Ok ())
    | Ok (Some call) =>
        match pipeline_fault env with
        | Some PipelineInit => ([], Raise PipelineError)
        | Some PipelineAddText => ([call], Raise PipelineError)
        | None => ([call], Ok ())
        end
    end
  else ([], Ok ()).

(** ** [FeedbackTable] *)

(** What a create leaves behind: the value returned (or the exception that
    left the method), the committed table, and the calls made on the
    memory-ingestion sink. *)
Record Created := {
  returned : result (option FeedbackModel);
  table_after : gmap string Feedback;
  add_text_calls : list add_text_call
}.

(** The keyword arguments of lines 104-111: the items of the form's dump are
    written over [id], [user_id] and [version]; the two time stamps, each a
    reading of the clock, are written last. *)
Definition new_feedback_kwargs (env : Env) (user_id : string) (form_data : FeedbackForm)
  : dict :=
  dict_set "updated_at" (JNum (time_time env 1))
    (dict_set "created_at" (JNum (time_time env 0))
       (dict_update
          [("id", JStr (uuid4 env)); ("user_id", JStr user_id); ("version", JNum 0)]
          (FeedbackForm_model_dump form_data))).

(** Lines 114-117, inside the [try]. *)
Definition persist (env : Env) (row : Feedback) : DB Feedback :=
  db_add env row;; db_commit env;; db_refresh env row.

(** Lines 98-161. The view is built before the [try], so an error of its
    validation leaves the method; every exception raised inside the [try],
    by the session or by the side effect, ends in [return None]. A mapped
    row is truthy, so the [else] of line 157 is never taken. *)
Definition insert_new_feedback (env : Env) (t : gmap string Feedback)
    (user_id : string) (form_data : FeedbackForm) : Created :=
  match FeedbackModel_init env (new_feedback_kwargs env user_id form_data) with
  | Raise e => {| returned := Raise e; table_after := t; add_text_calls := [] |}
  | Ok feedback =>
      (* try: *)
      match with_get_db t (persist env (Feedback_of_model feedback)) with
      | (Raise _, t') =>
          (* except Exception: return None *)
          {| returned := Ok None; table_after := t'; add_text_calls := [] |}
      | (Ok result, t') =>
          let feedback_model := model_validate result in
          match conversation_memory env user_id form_data with
          | (calls, Raise _) =>
              (* except Exception: return None *)
              {| returned := Ok None; table_after := t'; add_text_calls := calls |}
          | (calls, Ok _) =>
              {| returned := Ok (Some feedback_model); table_after := t';
                 add_text_calls := calls |}
          end
      end
  end.

(** The two reads by identifier catch every exception and return [None]. *)
Definition get_feedback_by_id (env : Env) (t : gmap string Feedback) (id : string)
  : option FeedbackModel :=
  match with_get_db t (db_first_by_id env id) with
  | (Ok (Some feedback), _) => Some (model_validate feedback)
  | _ => None
  end.

Definition get_feedback_by_id_and_user_id (env : Env) (t : gmap string Feedback)
    (id user_id : string) : option FeedbackModel :=
  match with_get_db t (db_first_by_id_and_user_id env id user_id) with
  | (Ok (Some feedback), _) => Some (model_validate feedback)
  | _ => None
  end.

(** The three listings; an exception of the query leaves the method. *)
Definition listing (env : Env) (t : gmap string Feedback) (p : Feedback → bool)
  : result (list FeedbackModel) :=
  fst (with_get_db t
         (rows ← db_all env p;
          mret (model_validate <$> order_by_updated_at_desc rows))).

Definition get_all_feedbacks (env : Env) (t : gmap string Feedback)
  : result (list FeedbackModel) :=
  listing env t (λ _, true).

Definition get_feedbacks_by_type (env : Env) (t : gmap string Feedback)
    (type : string) : result (list FeedbackModel) :=
  listing env t (λ r, String.eqb (f_type r) type).

Definition get_feedbacks_by_user_id (env : Env) (t : gmap string Feedback)
    (user_id : string) : result (list FeedbackModel) :=
  listing env t (λ r, String.eqb (f_user_id r) user_id).

(** Assignments to the attributes of a loaded row. *)
Definition set_data (v : option dict) (r : Feedback) : Feedback :=
  {| f_id := f_id r; f_user_id := f_user_id r; f_version := f_version r;
     f_type := f_type r; f_data := v; f_meta := f_meta r;
     f_snapshot := f_snapshot r;
     f_created_at := f_created_at r; f_updated_at := f_updated_at r |}.

Definition set_meta (v : option dict) (r : Feedback) : Feedback :=
  {| f_id := f_id r; f_user_id := f_user_id r; f_version := f_version r;
     f_type := f_type r; f_data := f_data r; f_meta := v;
     f_snapshot := f_snapshot r;
     f_created_at := f_created_at r; f_updated_at := f_updated_at r |}.

Definition set_snapshot (v : option dict) (r : Feedback) : Feedback :=
  {| f_id := f_id r; f_user_id := f_user_id r; f_version := f_version r;
     f_type := f_type r; f_data := f_data r; f_meta := f_meta r;
     f_snapshot := v;
     f_created_at := f_created_at r; f_updated_at := f_updated_at r |}.

Definition set_updated_at (v : Z) (r : Feedback) : Feedback :=
  {| f_id := f_id r; f_user_id := f_user_id r; f_version := f_version r;
     f_type := f_type r; f_data := f_data r; f_meta := f_meta r;
     f_snapshot := f_snapshot r;
     f_created_at := f_created_at r; f_updated_at := v |}.

(** Lines 222-229 and 242-249: a form model is always truthy, a dict only
    when it has an item. *)
Definition assign_form (env : Env) (form_data : FeedbackForm) (feedback : Feedback)
  : Feedback :=
  let feedback :=
    match data form_data with
    | Some d => set_data (Some (RatingData_model_dump d)) feedback
    | None => feedback
    end in
  let feedback :=
    if truthy_dict (meta form_data)
    then set_meta (meta form_data) feedback else feedback in
  let feedback :=
    match snapshot form_data with
    | Some s => set_snapshot (Some (SnapshotData_model_dump s)) feedback
    | None => feedback
    end in
  set_updated_at (time_time env 0) feedback.

Definition update_loaded (env : Env) (form_data : FeedbackForm)
    (found : option Feedback) : DB (option FeedbackModel) :=
  match found with
  | None => mret None
  | Some feedback =>
      let feedback := assign_form env form_data feedback in
      db_stage (Update feedback);;
      db_commit env;;
      mret (Some (model_validate feedback))
  end.

Definition update_feedback_by_id (env : Env) (t : gmap string Feedback)
    (id : string) (form_data : FeedbackForm)
  : result (option FeedbackModel) * gmap string Feedback :=
  with_get_db t
    (feedback ← db_first_by_id env id; update_loaded env form_data feedback).

Definition update_feedback_by_id_and_user_id (env : Env) (t : gmap string Feedback)
    (id user_id : string) (form_data : FeedbackForm)
  : result (option FeedbackModel) * gmap string Feedback :=
  with_get_db t
    (feedback ← db_first_by_id_and_user_id env id user_id;
     update_loaded env form_data feedback).

Definition delete_loaded (env : Env) (found : option Feedback) : DB bool :=
  match found with
  | None => mret false
  | Some feedback => db_delete env feedback;; db_commit env;; mret true
  end.

Definition delete_feedback_by_id (env : Env) (t : gmap string Feedback) (id : string)
  : result bool * gmap string Feedback :=
  with_get_db t (feedback ← db_first_by_id env id; delete_loaded env feedback).

Definition delete_feedback_by_id_and_user_id (env : Env) (t : gmap string Feedback)
    (id user_id : string) : result bool * gmap string Feedback :=
  with_get_db t
    (feedback ← db_first_by_id_and_user_id env id user_id;
     delete_loaded env feedback).

Fixpoint db_delete_each (env : Env) (feedbacks : list Feedback) : DB () :=
  match feedbacks with
  | [] => mret ()
  | feedback :: rest => db_delete env feedback;; db_delete_each env rest
  end.

Definition delete_listed (env : Env) (feedbacks : list Feedback) : DB bool :=
  match feedbacks with
  | [] => mret false
  | _ => db_delete_each env feedbacks;; db_commit env;; mret true
  end.

Definition delete_feedbacks_by_user_id (env : Env) (t : gmap string Feedback)
    (user_id : string) : result bool * gmap string Feedback :=
  with_get_db t
    (feedbacks ← db_all env (λ r, String.eqb (f_user_id r) user_id);
     delete_listed env feedbacks).

Definition delete_all_feedbacks (env : Env) (t : gmap string Feedback)
  : result bool * gmap string Feedback :=
  with_get_db t (feedbacks ← db_all env (λ _, true); delete_listed env feedbacks).

(** ** Reachable tables

    The tables that a sequence of operations of [FeedbackTable] can leave,
    starting from the empty one. The reads leave the table as it is. *)
Inductive reachable : gmap string Feedback → Prop :=
| reach_empty : reachable ∅
| reach_insert env t user_id form_data :
    reachable t →
    reachable (table_after (insert_new_feedback env t user_id form_data))
| reach_update env t id form_data :
    reachable t → reachable (update_feedback_by_id env t id form_data).2
| reach_update_user env t id user_id form_data :
    reachable t →
    reachable (update_feedback_by_id_and_user_id env t id user_id form_data).2
| reach_delete env t id :
    reachable t → reachable (delete_feedback_by_id env t id).2
| reach_delete_user env t id user_id :
    reachable t → reachable (delete_feedback_by_id_and_user_id env t id user_id).2
| reach_delete_by_user env t user_id :
    reachable t → reachable (delete_feedbacks_by_user_id env t user_id).2
| reach_delete_all env t :
    reachable t → reachable (delete_all_feedbacks env t).2.

(** A row is stored when the table holds it under its own identifier. *)
Definition stored (t : gmap string Feedback) (r : Feedback) : Prop :=
  t !! f_id r = Some r.

(** Every key of the table is the identifier of its row. *)
Definition table_wf (t : gmap string Feedback) : Prop :=
  ∀ k r, t !! k = Some r → f_id r = k.

(** A computation on a session keeps a property [P] of the table. *)
Definition keeps (P : gmap string Feedback → Prop) {A} (m : DB A) : Prop :=
  ∀ s, P (store s) → P (store (m s).2).

(** The attributes that the condition of the side effect reads. *)
Definition rating_of (f : FeedbackForm) : option (string + Z) := data f ≫= rating.
Definition chat_of (f : FeedbackForm) : option dict := snapshot f ≫= chat.
Definition message_id_of (f : FeedbackForm) : option json :=
  meta f ≫= dict_get "message_id".

(** ** Sample inputs

    Concrete environments, forms and rows on which the statements below are
    evaluated. *)

(** An environment in which no external call fails; the clock stands still
    during the call. *)
Definition calm_env : Env :=
  {| uuid4 := "0b5e6a52-7c1d-4a8e-9d53-2f6f0c1e4a77";
     time_time := λ _, 1700000000;
     db_fault := None;
     pipeline_fault := None;
     str_as_int := λ _, None;
     py_repr := λ _, "" |}.

(** The same, the clock passing to the next second between two readings. *)
Definition ticking_env : Env :=
  {| uuid4 := uuid4 calm_env;
     time_time := λ n, 1700000000 + Z.of_nat n;
     db_fault := None;
     pipeline_fault := None;
     str_as_int := str_as_int calm_env;
     py_repr := py_repr calm_env |}.

Definition with_db_fault (c : db_call) (env : Env) : Env :=
  {| uuid4 := uuid4 env; time_time := time_time env;
     db_fault := Some c; pipeline_fault := pipeline_fault env;
     str_as_int := str_as_int env; py_repr := py_repr env |}.

Definition with_pipeline_fault (c : pipeline_call) (env : Env) : Env :=
  {| uuid4 := uuid4 env; time_time := time_time env;
     db_fault := db_fault env; pipeline_fault := Some c;
     str_as_int := str_as_int env; py_repr := py_repr env |}.

Definition rating_data (r : Z) : RatingData :=
  {| rating := Some (inr r); model_id := Some "m1"; sibling_model_ids := None;
     reason := None; comment := None; rating_extra := [] |}.

(** The chat of the specification's scenario: a prompt and its answer. *)
Definition scenario_chat : dict :=
  [("history", JObj [("messages", JObj [
      ("msg1", JObj [("content", JStr "hi"); ("parentId", JNull)]);
      ("msg2", JObj [("content", JStr "hello back"); ("parentId", JStr "msg1")])])])].

Definition scenario_form : FeedbackForm :=
  {| type := "rating";
     data := Some (rating_data 1);
     meta := Some [("message_id", JStr "msg2")];
     snapshot := Some {| chat := Some scenario_chat; snapshot_extra := [] |};
     extra := [] |}.

(** The scenario with a [meta] that names a chat but no message. *)
Definition no_message_form : FeedbackForm :=
  {| type := "rating";
     data := Some (rating_data 1);
     meta := Some [("chat_id", JStr "c1")];
     snapshot := Some {| chat := Some scenario_chat; snapshot_extra := [] |};
     extra := [] |}.

(** The scenario with a chat snapshot that has a title and no history. *)
Definition no_history_form : FeedbackForm :=
  {| type := "rating";
     data := Some (rating_data 1);
     meta := Some [("message_id", JStr "msg2")];
     snapshot := Some {| chat := Some [("title", JStr "greeting")];
                         snapshot_extra := [] |};
     extra := [] |}.

(** A form with one extra item, named [version]. *)
Definition versioned_form : FeedbackForm :=
  {| type := "rating"; data := None; meta := None; snapshot := None;
     extra := [("version", JNum 7)] |}.

(** A form that carries a [meta] alone, and one whose [meta] is empty. *)
Definition meta_only_form (m : dict) : FeedbackForm :=
  {| type := "rating"; data := None; meta := Some m; snapshot := None;
     extra := [] |}.

(** A form with another [type] than the sample row, and a new [data]. *)
Definition retyped_form : FeedbackForm :=
  {| type := "comment"; data := Some (rating_data (-1)); meta := None;
     snapshot := None; extra := [] |}.

(** A form with its [meta] taken away. *)
Definition without_meta (f : FeedbackForm) : FeedbackForm :=
  {| type := type f; data := data f; meta := None; snapshot := snapshot f;
     extra := extra f |}.

Definition sample_row : Feedback :=
  {| f_id := "f1"; f_user_id := "alice"; f_version := 0; f_type := "rating";
     f_data := Some (RatingData_model_dump (rating_data 1));
     f_meta := Some [("message_id", JStr "msg2")];
     f_snapshot := Some [("chat", JObj scenario_chat)];
     f_created_at := 1690000000; f_updated_at := 1690000000 |}.

Definition sample_table : gmap string Feedback := {[ "f1" := sample_row ]}.

(** The names of the fields of a record that a create does not write after
    the items of the form. *)
Definition overridable_fields : list string :=
  ["id"; "user_id"; "version"; "type"; "data"; "meta"; "snapshot"].

(** The scenario, the rating given on its first message, which has no
    parent. *)
Definition orphan_form : FeedbackForm :=
  {| type := "rating";
     data := Some (rating_data 1);
     meta := Some [("message_id", JStr "msg1")];
     snapshot := Some {| chat := Some scenario_chat; snapshot_extra := [] |};
     extra := [] |}.

(** A chat whose prompt is a number. *)
Definition numeric_chat : dict :=
  [("history", JObj [("messages", JObj [
      ("q", JObj [("content", JNum 42)]);
      ("a", JObj [("parentId", JStr "q"); ("content", JStr "forty-two")])])])].

Definition numeric_form : FeedbackForm :=
  {| type := "rating";
     data := Some (rating_data 1);
     meta := Some [("message_id", JStr "a"); ("chat_id", JStr "c1")];
     snapshot := Some {| chat := Some numeric_chat; snapshot_extra := [] |};
     extra := [] |}.

(** A form with extra items named after the identifier and the owner. *)
Definition impersonating_form : FeedbackForm :=
  {| type := "rating"; data := None; meta := None; snapshot := None;
     extra := [("user_id", JStr "bob"); ("id", JStr "f9")] |}.

(** A second and a third row, and a table of three rows of two users. *)
Definition bob_row : Feedback :=
  {| f_id := "f2"; f_user_id := "bob"; f_version := 0; f_type := "comment";
     f_data := None; f_meta := None; f_snapshot := None;
     f_created_at := 1690000100; f_updated_at := 1690000200 |}.

Definition later_row : Feedback :=
  {| f_id := "f3"; f_user_id := "alice"; f_version := 0; f_type := "rating";
     f_data := None; f_meta := None; f_snapshot := None;
     f_created_at := 1690000300; f_updated_at := 1690000300 |}.

Definition three_rows : gmap string Feedback :=
  <["f3" := later_row]> (<["f2" := bob_row]> sample_table).

(** The order of a listing, on views. *)
Definition listed_before (a b : FeedbackModel) : Prop :=
  m_updated_at b ≤ m_updated_at a.

(** An update or a delete leaves of a table [t] only rows that [t] had, under
    the same key, each with the identifier, owner, version, type and time of
    creation it had. *)
Definition same_identity (r r' : Feedback) : Prop :=
  f_id r' = f_id r ∧ f_user_id r' = f_user_id r ∧ f_version r' = f_version r ∧
  f_type r' = f_type r ∧ f_created_at r' = f_created_at r.

Definition no_new_rows (t t' : gmap string Feedback) : Prop :=
  ∀ k r', t' !! k = Some r' → ∃ r, t !! k = Some r ∧ same_identity r r'.

(** The form rates with the number 1 the message [mid] of a chat snapshot
    whose history holds the messages [msgs]. *)
Definition rated_message (f : FeedbackForm) (msgs : dict) (mid : string) : Prop :=
  rating_of f = Some (inr 1) ∧
  (∃ c h, chat_of f = Some c ∧ dict_get "history" c = Some (JObj h) ∧
          dict_get "messages" h = Some (JObj msgs)) ∧
  message_id_of f = Some (JStr mid) ∧
  mid ≠ "".

(** The table without the rows listed. *)
Definition delete_rows (t : gmap string Feedback) (l : list Feedback)
  : gmap string Feedback :=
  foldl (λ t r, delete (f_id r) t) t l.

(** The rows of a table that a filter selects. *)
Definition selected (t : gmap string Feedback) (p : Feedback → bool)
  : list Feedback :=
  filter (λ r, p r = true) (snd <$> map_to_list t).

(** * Properties *)

(** ** Dictionaries *)

Lemma dict_get_set_eq k v d : dict_get k (dict_set k v d) = Some v.
Proof.
  induction d as [|[k' v'] d IH]; simpl.
  - by rewrite String.eqb_refl.
  - destruct (String.eqb k k') eqn:E; simpl; rewrite E; [done | apply IH].
Qed.

Lemma dict_get_set_ne k k' v d :
  k ≠ k' → dict_get k (dict_set k' v d) = dict_get k d.
Proof.
  intros Hne. induction d as [|[k'' v''] d IH]; simpl.
  - by apply String.eqb_neq in Hne as ->.
  - destruct (String.eqb k' k'') eqn:E; simpl.
    + apply String.eqb_eq in E as <-. by apply String.eqb_neq in Hne as ->.
    + by rewrite IH.
Qed.

Lemma dict_get_update_ne k d1 d2 :
  dict_get k d2 = None → dict_get k (dict_update d1 d2) = dict_get k d1.
Proof.
  unfold dict_update. revert d1.
  induction d2 as [|[k' v'] d2 IH]; intros d1 Hk; simpl in *; [done |].
  destruct (String.eqb k k') eqn:E; [done |].
  rewrite IH by done. apply dict_get_set_ne. by apply String.eqb_neq.
Qed.

(** ** The record and its view *)

Lemma model_validate_of_model m : model_validate (Feedback_of_model m) = m.
Proof. by destruct m. Qed.

(** ** The session *)

Lemma db_raises_false env c : db_fault env ≠ Some c → db_raises env c = false.
Proof. intros H. unfold db_raises. by apply bool_decide_eq_false. Qed.

(** What the three session calls of a create do, by the call that fails. *)
Lemma persist_run env t row :
  with_get_db t (persist env row) =
    match db_fault env with
    | Some DbAdd | Some DbCommit => (Raise DBAPIError, t)
    | fault =>
        if fits_bigint (f_version row) then
          match t !! f_id row with
          | Some _ => (Raise IntegrityError, t)
          | None =>
              (if bool_decide (fault = Some DbRefresh)
               then Raise DBAPIError else Ok row,
               <[f_id row := row]> t)
          end
        else (Raise DataError, t)
    end.
Proof.
  unfold with_get_db, persist, mbind, DB_bind, db_add, db_commit, db_refresh,
    db_stage, db_raises.
  destruct (db_fault env) as [[]|]; simpl;
    destruct (fits_bigint (f_version row)); simpl; try done;
    destruct (t !! f_id row) eqn:Hrow; simpl; try done;
    by rewrite lookup_insert_eq.
Qed.


(** ** Create *)

(** The fields of a validated view are the validated keyword arguments. *)
Lemma FeedbackModel_init_Ok env kw m :
  FeedbackModel_init env kw = Ok m →
  field_str "id" kw = Ok (m_id m) ∧
  field_str "user_id" kw = Ok (m_user_id m) ∧
  field_int env "version" kw = Ok (m_version m) ∧
  field_int env "created_at" kw = Ok (m_created_at m) ∧
  field_int env "updated_at" kw = Ok (m_updated_at m).
Proof.
  unfold FeedbackModel_init.
  destruct (field_str "id" kw); simpl; [|done].
  destruct (field_str "user_id" kw); simpl; [|done].
  destruct (field_int env "version" kw); simpl; [|done].
  destruct (field_str "type" kw); simpl; [|done].
  destruct (field_opt_dict "data" kw); simpl; [|done].
  destruct (field_opt_dict "meta" kw); simpl; [|done].
  destruct (field_opt_dict "snapshot" kw); simpl; [|done].
  destruct (field_int env "created_at" kw); simpl; [|done].
  destruct (field_int env "updated_at" kw); simpl; [|done].
  by intros [= <-].
Qed.

(** The two time stamps of a new record are the two readings of the clock:
    no item of the form can take their place. *)
Lemma new_feedback_time_stamps env user_id form_data feedback :
  FeedbackModel_init env (new_feedback_kwargs env user_id form_data) = Ok feedback →
  m_created_at feedback = time_time env 0 ∧ m_updated_at feedback = time_time env 1.
Proof.
  intros (_ & _ & _ & Hc & Hu)%FeedbackModel_init_Ok.
  unfold field_int, new_feedback_kwargs in Hc, Hu.
  rewrite dict_get_set_eq in Hu.
  rewrite dict_get_set_ne, dict_get_set_eq in Hc by done.
  split; congruence.
Qed.

(** A create whose three session calls go through returns according to the
    side effect alone; the row is committed either way. *)
Lemma insert_committed env t user_id form_data feedback :
  FeedbackModel_init env (new_feedback_kwargs env user_id form_data) = Ok feedback →
  db_fault env = None →
  t !! m_id feedback = None →
  fits_bigint (m_version feedback) = true →
  insert_new_feedback env t user_id form_data =
    {| returned :=
         match (conversation_memory env user_id form_data).2 with
         | Ok _ => Ok (Some feedback)
         | Raise _ => Ok None
         end;
       table_after := <[m_id feedback := Feedback_of_model feedback]> t;
       add_text_calls := (conversation_memory env user_id form_data).1 |}.
Proof.
  intros Hinit Hfault Hfresh Hfits.
  unfold insert_new_feedback. rewrite Hinit, persist_run, Hfault. simpl.
  rewrite Hfits, Hfresh. simpl. rewrite model_validate_of_model.
  by destruct (conversation_memory env user_id form_data) as [calls []].
Qed.

(** Whatever a create returns, the view it returns is the validated one. *)
Lemma insert_returned env t user_id form_data m :
  returned (insert_new_feedback env t user_id form_data) = Ok (Some m) →
  FeedbackModel_init env (new_feedback_kwargs env user_id form_data) = Ok m.
Proof.
  unfold insert_new_feedback.
  destruct (FeedbackModel_init _ _) as [feedback|]; [|done].
  rewrite persist_run.
  destruct (db_fault env) as [[]|]; simpl; try done;
    destruct (fits_bigint (m_version feedback)); simpl; try done;
    destruct (t !! m_id feedback); simpl; try done;
    destruct (conversation_memory env user_id form_data) as [calls []];
    simpl; try done;
    rewrite model_validate_of_model; congruence.
Qed.



(** C1, as the code has it: a create whose row was committed and whose
    conversation-memory side effect then raises returns [None], the value of
    a failed create, although the committed row stays in the table and is
    found by a read. *)
Theorem insert_side_effect_failure_returns_none
    env t user_id form_data feedback result t' e :
  FeedbackModel_init env (new_feedback_kwargs env user_id form_data) = Ok feedback →
  with_get_db t (persist env (Feedback_of_model feedback)) = (Ok result, t') →
  (conversation_memory env user_id form_data).2 = Raise e →
  let c := insert_new_feedback env t user_id form_data in
  returned c = Ok None ∧
  table_after c = t' ∧
  stored (table_after c) (Feedback_of_model feedback) ∧
  (∀ env', db_fault env' ≠ Some DbQuery →
           get_feedback_by_id env' (table_after c) (m_id feedback) = Some feedback).
Proof.
  intros Hinit Hpersist Hmem. simpl.
  unfold insert_new_feedback. rewrite Hinit, Hpersist.
  destruct (conversation_memory env user_id form_data) as [calls []];
    simpl in *; [done |].
  rewrite persist_run in Hpersist.
  assert (t' !! m_id feedback = Some (Feedback_of_model feedback)) as Hrow.
  { destruct (db_fault env) as [[]|]; simpl in *; try done;
      destruct (fits_bigint (m_version feedback)); simpl in *; try done;
      destruct (t !! m_id feedback); simpl in *; try done;
      injection Hpersist as _ <-; apply lookup_insert_eq. }
  repeat split; [done |].
  intros env' Hquery.
  unfold get_feedback_by_id, with_get_db, db_first_by_id. simpl.
  rewrite db_raises_false by done.
  simpl. rewrite Hrow. by rewrite model_validate_of_model.
Qed.

Lemma insert_side_effect_failure_witness :
  FeedbackModel_init calm_env (new_feedback_kwargs calm_env "alice" no_history_form)
    = Ok (model_validate
            {| f_id := uuid4 calm_env; f_user_id := "alice"; f_version := 0;
               f_type := "rating";
               f_data := Some (RatingData_model_dump (rating_data 1));
               f_meta := Some [("message_id", JStr "msg2")];
               f_snapshot := Some [("chat", JObj [("title", JStr "greeting")])];
               f_created_at := 1700000000; f_updated_at := 1700000000 |}) ∧
  (conversation_memory calm_env "alice" no_history_form).2 = Raise KeyError ∧
  returned (insert_new_feedback calm_env ∅ "alice" no_history_form) = Ok None ∧
  is_Some (table_after (insert_new_feedback calm_env ∅ "alice" no_history_form)
             !! uuid4 calm_env).
Proof.
  split; [reflexivity |]. split; [reflexivity |].
  edestruct (insert_side_effect_failure_returns_none
               calm_env ∅ "alice" no_history_form) as (Hret & _ & Hrow & _);
    [reflexivity | vm_compute; reflexivity | reflexivity |].
  split; [exact Hret | exact (mk_is_Some _ _ Hrow)].
Defined.

(** The same outcome when it is the sink itself that raises, on the
    scenario of the specification. *)
Example insert_sink_failure_returns_none :
  let c := insert_new_feedback (with_pipeline_fault PipelineAddText calm_env)
             ∅ "alice" scenario_form in
  returned c = Ok None ∧ length (add_text_calls c) = 1%nat ∧
  is_Some (table_after c !! uuid4 calm_env).
Proof. vm_compute. repeat split. by eexists. Qed.



(** A failure of the read-back, after the commit, is outside that statement:
    the create returns [None] and the row is in the table. *)
Lemma insert_refresh_failure env t user_id form_data feedback :
  FeedbackModel_init env (new_feedback_kwargs env user_id form_data) = Ok feedback →
  db_fault env = Some DbRefresh →
  t !! m_id feedback = None →
  fits_bigint (m_version feedback) = true →
  insert_new_feedback env t user_id form_data =
    {| returned := Ok None;
       table_after := <[m_id feedback := Feedback_of_model feedback]> t;
       add_text_calls := [] |}.
Proof.
  intros Hinit Hfault Hfresh Hfits.
  unfold insert_new_feedback. rewrite Hinit, persist_run, Hfault. simpl.
  by rewrite Hfits, Hfresh.
Qed.


(** A version outside the range of its column stops the create at the
    commit: [None] is returned, nothing is stored and no sink is called. *)
Lemma insert_version_out_of_range env t user_id form_data feedback :
  FeedbackModel_init env (new_feedback_kwargs env user_id form_data) = Ok feedback →
  fits_bigint (m_version feedback) = false →
  insert_new_feedback env t user_id form_data =
    {| returned := Ok None; table_after := t; add_text_calls := [] |}.
Proof.
  intros Hinit Hfits.
  unfold insert_new_feedback. rewrite Hinit, persist_run. simpl.
  rewrite Hfits. by destruct (db_fault env) as [[]|].
Qed.

(** C3: on the scenario of the specification, with the database and the
    pipeline working and a fresh identifier, the create returns the persisted
    record and calls the sink exactly once, with the two-line excerpt, the
    collection named after the user, and the source and message identifier as
    metadata. *)
Theorem insert_scenario_calls_sink_once env t user_id :
  db_fault env = None →
  pipeline_fault env = None →
  t !! uuid4 env = None →
  let c := insert_new_feedback env t user_id scenario_form in
  (∃ m, returned c = Ok (Some m) ∧
        m_id m = uuid4 env ∧ m_user_id m = user_id ∧ m_type m = "rating" ∧
        table_after c = <[uuid4 env := Feedback_of_model m]> t) ∧
  add_text_calls c =
    [{| text := "User: hi" ++ newline ++ "Assistant: hello back";
        collection_name := "conversation_memory_" ++ user_id;
        metadata := [("source", JStr "feedback"); ("message_id", JStr "msg2")] |}].
Proof.
  intros Hdb Hpipe Hfresh. simpl.
  pose proof (insert_committed env t user_id scenario_form) as Hrun.
  specialize (Hrun _ eq_refl Hdb Hfresh eq_refl).
  rewrite Hrun.
  unfold conversation_memory. cbn -[String.append]. rewrite Hpipe. simpl.
  split; [|done]. by eexists.
Qed.

Lemma insert_scenario_witness :
  sample_table !! uuid4 calm_env = None ∧
  add_text_calls (insert_new_feedback calm_env sample_table "alice" scenario_form) =
    [{| text := "User: hi" ++ newline ++ "Assistant: hello back";
        collection_name := "conversation_memory_alice";
        metadata := [("source", JStr "feedback"); ("message_id", JStr "msg2")] |}].
Proof.
  split; [reflexivity |].
  exact (proj2 (insert_scenario_calls_sink_once calm_env sample_table "alice"
                  eq_refl eq_refl eq_refl)).
Defined.



(** C6, as the code has it: the view a create returns carries in
    [created_at] the first and in [updated_at] the second reading of the
    clock; the two are equal when the readings are, and ordered when the
    clock has not gone back between them. *)
Theorem insert_time_stamps env t user_id form_data m :
  returned (insert_new_feedback env t user_id form_data) = Ok (Some m) →
  m_created_at m = time_time env 0 ∧
  m_updated_at m = time_time env 1 ∧
  (time_time env 0 = time_time env 1 → m_created_at m = m_updated_at m) ∧
  (time_time env 0 ≤ time_time env 1 → m_created_at m ≤ m_updated_at m).
Proof.
  intros Hret%insert_returned.
  destruct (new_feedback_time_stamps _ _ _ _ Hret) as [-> ->].
  auto.
Qed.

Lemma insert_time_stamps_witness :
  ∃ m, returned (insert_new_feedback calm_env sample_table "alice" scenario_form)
       = Ok (Some m) ∧
       m_created_at m = m_updated_at m.
Proof.
  eexists. split; [reflexivity |].
  eapply (insert_time_stamps calm_env sample_table "alice" scenario_form);
    reflexivity.
Defined.

(** C6 as stated fails when the second falls between the two readings. *)
Lemma insert_time_stamps_differ_across_a_tick :
  ¬ (∀ m, returned (insert_new_feedback ticking_env ∅ "alice" scenario_form)
          = Ok (Some m) →
          m_created_at m = m_updated_at m).
Proof.
  intros Hclaim.
  rewrite (insert_committed ticking_env ∅ "alice" scenario_form _
             eq_refl eq_refl (lookup_empty _) eq_refl) in Hclaim.
  specialize (Hclaim _ eq_refl). discriminate Hclaim.
Qed.

(** C8, as the code has it: an extra item of the form named [version] is
    written over the 0 that the create puts first, so a reachable table holds
    a row whose version is not 0. *)
Theorem insert_version_overridden_by_form_item :
  let t := table_after (insert_new_feedback calm_env ∅ "alice" versioned_form) in
  reachable t ∧ f_version <$> t !! uuid4 calm_env = Some 7.
Proof.
  split.
  - apply reach_insert, reach_empty.
  - vm_compute. reflexivity.
Qed.

(** Without such an item the version of a new record is 0. *)
Lemma insert_version_default env user_id form_data feedback :
  dict_get "version" (extra form_data) = None →
  FeedbackModel_init env (new_feedback_kwargs env user_id form_data) = Ok feedback →
  m_version feedback = 0.
Proof.
  intros Hextra (_ & _ & Hv & _)%FeedbackModel_init_Ok.
  unfold field_int, new_feedback_kwargs in Hv.
  rewrite !dict_get_set_ne in Hv by done.
  rewrite dict_get_update_ne in Hv; [simpl in Hv; congruence |].
  unfold FeedbackForm_model_dump. by rewrite dict_get_update_ne.
Qed.

(** ** Update *)

(** An update assigns at most [data], [meta], [snapshot] and [updated_at]. *)
Lemma assign_form_frame env form_data r :
  f_id (assign_form env form_data r) = f_id r ∧
  f_user_id (assign_form env form_data r) = f_user_id r ∧
  f_version (assign_form env form_data r) = f_version r ∧
  f_type (assign_form env form_data r) = f_type r ∧
  f_created_at (assign_form env form_data r) = f_created_at r ∧
  f_updated_at (assign_form env form_data r) = time_time env 0.
Proof.
  unfold assign_form.
  by destruct (data form_data), (truthy_dict (meta form_data)),
    (snapshot form_data).
Qed.

Lemma assign_form_data env form_data r :
  f_data (assign_form env form_data r) =
    match data form_data with
    | Some d => Some (RatingData_model_dump d)
    | None => f_data r
    end.
Proof.
  unfold assign_form.
  by destruct (data form_data), (truthy_dict (meta form_data)),
    (snapshot form_data).
Qed.

Lemma assign_form_meta env form_data r :
  f_meta (assign_form env form_data r) =
    if truthy_dict (meta form_data) then meta form_data else f_meta r.
Proof.
  unfold assign_form.
  by destruct (data form_data), (truthy_dict (meta form_data)),
    (snapshot form_data).
Qed.

Lemma assign_form_snapshot env form_data r :
  f_snapshot (assign_form env form_data r) =
    match snapshot form_data with
    | Some s => Some (SnapshotData_model_dump s)
    | None => f_snapshot r
    end.
Proof.
  unfold assign_form.
  by destruct (data form_data), (truthy_dict (meta form_data)),
    (snapshot form_data).
Qed.

(** The assignments and the commit of an update, on a freshly opened
    session. *)
Lemma update_loaded_run env t r form_data :
  stored t r →
  update_loaded env form_data (Some r) {| store := t; pending := [] |} =
    if db_raises env DbCommit
    then (Raise DBAPIError, {| store := t; pending := [] |})
    else (Ok (Some (model_validate (assign_form env form_data r))),
          {| store := <[f_id r := assign_form env form_data r]> t;
             pending := [] |}).
Proof.
  intros Hr. unfold stored in Hr.
  destruct (assign_form_frame env form_data r) as (Hid & _).
  unfold update_loaded.
  revert Hid. generalize (assign_form env form_data r). intros r' Hid.
  unfold mbind, mret, DB_bind, DB_ret, db_stage, db_commit. simpl.
  destruct (db_raises env DbCommit); simpl; [done |].
  by rewrite Hid, Hr.
Qed.

(** What an update of a stored row does, by the session call that fails. *)
Lemma update_by_id_stored env t r form_data :
  stored t r →
  update_feedback_by_id env t (f_id r) form_data =
    match db_fault env with
    | Some DbQuery | Some DbCommit => (Raise DBAPIError, t)
    | _ => (Ok (Some (model_validate (assign_form env form_data r))),
            <[f_id r := assign_form env form_data r]> t)
    end.
Proof.
  intros Hr.
  unfold update_feedback_by_id, with_get_db, db_first_by_id.
  unfold mbind at 1. unfold DB_bind. simpl. rewrite Hr.
  destruct (db_raises env DbQuery) eqn:Hq.
  - apply bool_decide_eq_true in Hq as ->. done.
  - rewrite update_loaded_run by done. unfold db_raises in *.
    destruct (db_fault env) as [[]|]; done.
Qed.

Lemma update_by_id_and_user_id_stored env t r user_id form_data :
  stored t r →
  update_feedback_by_id_and_user_id env t (f_id r) user_id form_data =
    match db_fault env with
    | Some DbQuery => (Raise DBAPIError, t)
    | _ =>
        if String.eqb (f_user_id r) user_id
        then update_feedback_by_id env t (f_id r) form_data
        else (Ok None, t)
    end.
Proof.
  intros Hr. rewrite update_by_id_stored by done.
  unfold update_feedback_by_id_and_user_id, with_get_db,
    db_first_by_id_and_user_id.
  unfold mbind at 1. unfold DB_bind. simpl. rewrite Hr.
  destruct (db_raises env DbQuery) eqn:Hq.
  - apply bool_decide_eq_true in Hq as ->. done.
  - destruct (String.eqb (f_user_id r) user_id).
    + rewrite update_loaded_run by done. unfold db_raises in *.
      destruct (db_fault env) as [[]|]; done.
    + simpl. unfold db_raises in *. destruct (db_fault env) as [[]|]; done.
Qed.

(** The row found under the identifier of a stored row after an update. *)
Lemma update_by_id_row env t r form_data :
  stored t r →
  (update_feedback_by_id env t (f_id r) form_data).2 !! f_id r = Some r ∨
  (update_feedback_by_id env t (f_id r) form_data).2 !! f_id r
    = Some (assign_form env form_data r).
Proof.
  intros Hr. rewrite update_by_id_stored by done.
  destruct (db_fault env) as [[]|]; simpl;
    first [by left | right; apply lookup_insert_eq].
Qed.

Lemma update_by_id_and_user_id_row env t r user_id form_data :
  stored t r →
  (update_feedback_by_id_and_user_id env t (f_id r) user_id form_data).2 !! f_id r
    = Some r ∨
  (update_feedback_by_id_and_user_id env t (f_id r) user_id form_data).2 !! f_id r
    = Some (assign_form env form_data r).
Proof.
  intros Hr. rewrite update_by_id_and_user_id_stored by done.
  pose proof (update_by_id_row env t r form_data Hr) as Hrow.
  destruct (db_fault env) as [[]|]; simpl;
    destruct (String.eqb (f_user_id r) user_id); simpl; auto.
Qed.

(** C5, as the code has it: an update of a stored row by a form that carries
    only a [meta] with at least one item, the database working, leaves [data]
    and [snapshot] as they were, stores the form's [meta] as it is in place
    of the old one, and sets [updated_at] to the reading of the clock, which
    is not before the old value unless the clock went back; both updates
    return the view of the new row. *)
Theorem update_with_meta_only env t r m form_data :
  stored t r →
  data form_data = None →
  snapshot form_data = None →
  meta form_data = Some m →
  m ≠ [] →
  db_fault env = None →
  ∃ r',
    update_feedback_by_id env t (f_id r) form_data
      = (Ok (Some (model_validate r')), <[f_id r := r']> t) ∧
    update_feedback_by_id_and_user_id env t (f_id r) (f_user_id r) form_data
      = (Ok (Some (model_validate r')), <[f_id r := r']> t) ∧
    f_data r' = f_data r ∧
    f_snapshot r' = f_snapshot r ∧
    f_meta r' = Some m ∧
    f_updated_at r' = time_time env 0 ∧
    (f_updated_at r ≤ time_time env 0 → f_updated_at r ≤ f_updated_at r').
Proof.
  intros Hr Hdata Hsnap Hmeta Hm Hdb.
  exists (assign_form env form_data r).
  rewrite update_by_id_and_user_id_stored, update_by_id_stored by done.
  rewrite Hdb, String.eqb_refl.
  rewrite assign_form_data, assign_form_snapshot, assign_form_meta.
  destruct (assign_form_frame env form_data r) as (_ & _ & _ & _ & _ & ->).
  rewrite Hdata, Hsnap, Hmeta.
  destruct m as [|item m]; [done |]. simpl. done.
Qed.

Lemma update_with_meta_only_witness :
  stored sample_table sample_row ∧
  ∃ r', (update_feedback_by_id calm_env sample_table "f1"
           (meta_only_form [("tags", JList [JStr "helpful"])])).2 !! "f1"
        = Some r' ∧
        f_meta r' = Some [("tags", JList [JStr "helpful"])] ∧
        f_data r' = f_data sample_row.
Proof.
  split; [reflexivity |].
  destruct (update_with_meta_only calm_env sample_table sample_row
              [("tags", JList [JStr "helpful"])]
              (meta_only_form [("tags", JList [JStr "helpful"])]))
    as (r' & Hrun & _ & Hdata & _ & Hmeta & _);
    [reflexivity | reflexivity | reflexivity | reflexivity | discriminate
    | reflexivity |].
  exists r'. split; [| split; [exact Hmeta | exact Hdata]].
  change "f1" with (f_id sample_row). rewrite Hrun. apply lookup_insert_eq.
Defined.

(** C5 as stated fails on a form whose [meta] is the empty mapping: the
    stored [meta] is not replaced by it. *)
Lemma update_with_empty_meta_keeps_stored_meta :
  ¬ (f_meta <$> (update_feedback_by_id calm_env sample_table "f1"
                   (meta_only_form [])).2 !! "f1"
     = Some (meta (meta_only_form []))).
Proof. vm_compute. discriminate. Qed.

(** C9: an update of a stored row by a form whose [meta] is the empty
    mapping leaves the stored [meta] as it was, under either update; the
    update does what it does for the same form without [meta]. *)
Theorem update_with_empty_meta env t r user_id form_data :
  stored t r →
  meta form_data = Some [] →
  (∃ r', (update_feedback_by_id env t (f_id r) form_data).2 !! f_id r = Some r' ∧
         f_meta r' = f_meta r) ∧
  (∃ r', (update_feedback_by_id_and_user_id env t (f_id r) user_id form_data).2
           !! f_id r = Some r' ∧
         f_meta r' = f_meta r) ∧
  update_feedback_by_id env t (f_id r) form_data
    = update_feedback_by_id env t (f_id r) (without_meta form_data) ∧
  update_feedback_by_id_and_user_id env t (f_id r) user_id form_data
    = update_feedback_by_id_and_user_id env t (f_id r) user_id
        (without_meta form_data).
Proof.
  intros Hr Hmeta.
  assert (f_meta (assign_form env form_data r) = f_meta r) as Hkeep.
  { rewrite assign_form_meta. by rewrite Hmeta. }
  assert (assign_form env form_data r = assign_form env (without_meta form_data) r)
    as Hsame.
  { unfold assign_form. by rewrite Hmeta. }
  split; [| split; [| split]].
  - destruct (update_by_id_row env t r form_data Hr) as [H | H];
      eexists; (split; [exact H | done]).
  - destruct (update_by_id_and_user_id_row env t r user_id form_data Hr)
      as [H | H]; eexists; (split; [exact H | done]).
  - rewrite !update_by_id_stored by done. by rewrite Hsame.
  - rewrite !update_by_id_and_user_id_stored, !update_by_id_stored by done.
    by rewrite Hsame.
Qed.

Lemma update_with_empty_meta_witness :
  stored sample_table sample_row ∧
  ∃ r', (update_feedback_by_id calm_env sample_table "f1" (meta_only_form [])).2
          !! "f1" = Some r' ∧
        f_meta r' = Some [("message_id", JStr "msg2")].
Proof.
  split; [reflexivity |].
  destruct (update_with_empty_meta calm_env sample_table sample_row "alice"
              (meta_only_form []))
    as ((r' & Hrow & Hmeta) & _); [reflexivity | reflexivity |].
  exists r'. split; [exact Hrow | exact Hmeta].
Defined.

(** C10: an update of a stored row, under either update and whatever the
    form and the outcome of the session calls, leaves the row's [id],
    [user_id], [type] and [created_at] as they were; the [type] of the form
    is not read, and a view returned carries the stored values. *)
Theorem update_keeps_identity env t r user_id form_data :
  stored t r →
  (∃ r', (update_feedback_by_id env t (f_id r) form_data).2 !! f_id r = Some r' ∧
         f_id r' = f_id r ∧ f_user_id r' = f_user_id r ∧
         f_type r' = f_type r ∧ f_created_at r' = f_created_at r) ∧
  (∃ r', (update_feedback_by_id_and_user_id env t (f_id r) user_id form_data).2
           !! f_id r = Some r' ∧
         f_id r' = f_id r ∧ f_user_id r' = f_user_id r ∧
         f_type r' = f_type r ∧ f_created_at r' = f_created_at r) ∧
  (∀ m, (update_feedback_by_id env t (f_id r) form_data).1 = Ok (Some m) ∨
        (update_feedback_by_id_and_user_id env t (f_id r) user_id form_data).1
          = Ok (Some m) →
        m_id m = f_id r ∧ m_user_id m = f_user_id r ∧
        m_type m = f_type r ∧ m_created_at m = f_created_at r).
Proof.
  intros Hr.
  destruct (assign_form_frame env form_data r) as (Hid & Hu & _ & Hty & Hc & _).
  split; [| split].
  - destruct (update_by_id_row env t r form_data Hr) as [H | H];
      eexists; (split; [exact H | done]).
  - destruct (update_by_id_and_user_id_row env t r user_id form_data Hr)
      as [H | H]; eexists; (split; [exact H | done]).
  - intros m.
    rewrite update_by_id_and_user_id_stored, update_by_id_stored by done.
    assert (∀ x : result (option FeedbackModel) * gmap string Feedback,
              x = (Raise DBAPIError, t) ∨ x = (Ok None, t) ∨
              x = (Ok (Some (model_validate (assign_form env form_data r))),
                   <[f_id r := assign_form env form_data r]> t) →
              x.1 = Ok (Some m) →
              m_id m = f_id r ∧ m_user_id m = f_user_id r ∧
              m_type m = f_type r ∧ m_created_at m = f_created_at r) as Hview.
    { intros x [-> | [-> | ->]]; simpl; [done | done |].
      intros [= <-]. simpl. done. }
    intros [H | H]; revert H; apply Hview;
      destruct (db_fault env) as [[]|];
      destruct (String.eqb (f_user_id r) user_id); auto.
Qed.

Lemma update_keeps_identity_witness :
  stored sample_table sample_row ∧
  type retyped_form ≠ f_type sample_row ∧
  ∃ r', (update_feedback_by_id calm_env sample_table "f1" retyped_form).2 !! "f1"
        = Some r' ∧
        f_type r' = "rating" ∧ f_user_id r' = "alice".
Proof.
  split; [reflexivity |]. split; [discriminate |].
  destruct (update_keeps_identity calm_env sample_table sample_row "alice"
              retyped_form)
    as ((r' & Hrow & _ & Huser & Htype & _) & _); [reflexivity |].
  exists r'. split; [exact Hrow | split; [exact Htype | exact Huser]].
Defined.

(** ** Read *)

(** C7: for a stored row and a user other than its owner, the read scoped to
    that user answers [None], while the read by the identifier alone, its
    query going through, answers the view of the row. *)
Theorem read_scoped_to_owner env env' t r user_id :
  stored t r →
  user_id ≠ f_user_id r →
  db_fault env' ≠ Some DbQuery →
  get_feedback_by_id_and_user_id env t (f_id r) user_id = None ∧
  get_feedback_by_id env' t (f_id r) = Some (model_validate r).
Proof.
  intros Hr Huser Hquery. unfold stored in Hr. split.
  - unfold get_feedback_by_id_and_user_id, with_get_db,
      db_first_by_id_and_user_id. simpl.
    destruct (db_raises env DbQuery); [done |]. rewrite Hr.
    destruct (String.eqb (f_user_id r) user_id) eqn:E; [|done].
    by apply String.eqb_eq in E.
  - unfold get_feedback_by_id, with_get_db, db_first_by_id. simpl.
    rewrite db_raises_false by done. by rewrite Hr.
Qed.

Lemma read_scoped_to_owner_witness :
  stored sample_table sample_row ∧
  "bob" ≠ f_user_id sample_row ∧
  get_feedback_by_id_and_user_id calm_env sample_table "f1" "bob" = None ∧
  get_feedback_by_id calm_env sample_table "f1" = Some (model_validate sample_row).
Proof.
  split; [reflexivity |]. split; [discriminate |].
  apply (read_scoped_to_owner calm_env calm_env sample_table sample_row "bob");
    [reflexivity | discriminate | discriminate].
Defined.

(** ** Invariants of the table *)

(** A property of the table that every statement of a flush keeps is kept by
    every computation on a session, hence by every operation. *)
Section StoreInvariant.
Variable P : gmap string Feedback → Prop.
Hypothesis P_change : ∀ t c t', P t → apply_change t c = Ok t' → P t'.

#[local] Abbreviation keeps := (keeps P).

Lemma keeps_ret {A} (a : A) : keeps (mret a).
Proof. by intros s. Qed.

Lemma keeps_bind {A B} (m : DB A) (f : A → DB B) :
  keeps m → (∀ a, keeps (f a)) → keeps (m ≫= f).
Proof.
  intros Hm Hf s Hs. unfold mbind, DB_bind.
  specialize (Hm s Hs). destruct (m s) as [[a|e] s']; simpl in *; [|done].
  by apply Hf.
Qed.

Lemma flush_keeps t cs t' : P t → flush t cs = Ok t' → P t'.
Proof.
  revert t. induction cs as [|c cs IH]; intros t Ht; simpl.
  - by intros [= <-].
  - destruct (apply_change t c) as [t1|] eqn:Hc; simpl; [|done].
    apply IH. by eapply P_change.
Qed.

Lemma keeps_stage c : keeps (db_stage c).
Proof. by intros s. Qed.

Lemma keeps_first_by_id env id : keeps (db_first_by_id env id).
Proof. intros s. unfold db_first_by_id. by destruct (db_raises _ _). Qed.

Lemma keeps_first_by_id_and_user_id env id user_id :
  keeps (db_first_by_id_and_user_id env id user_id).
Proof.
  intros s. unfold db_first_by_id_and_user_id. by destruct (db_raises _ _).
Qed.

Lemma keeps_all env p : keeps (db_all env p).
Proof. intros s. unfold db_all. by destruct (db_raises _ _). Qed.

Lemma keeps_add env r : keeps (db_add env r).
Proof. intros s. unfold db_add. by destruct (db_raises _ _). Qed.

Lemma keeps_delete env r : keeps (db_delete env r).
Proof. intros s. unfold db_delete. by destruct (db_raises _ _). Qed.

Lemma keeps_refresh env r : keeps (db_refresh env r).
Proof.
  intros s. unfold db_refresh.
  destruct (db_raises _ _); [done |]. by destruct (store s !! f_id r).
Qed.

Lemma keeps_commit env : keeps (db_commit env).
Proof.
  intros s Hs. unfold db_commit. destruct (db_raises _ _); [done |].
  destruct (flush (store s) (pending s)) eqn:Hflush; simpl; [|done].
  by eapply flush_keeps.
Qed.

Lemma keeps_delete_each env l : keeps (db_delete_each env l).
Proof.
  induction l as [|r l IH]; simpl.
  - apply keeps_ret.
  - apply keeps_bind; [apply keeps_delete | done].
Qed.

Lemma keeps_with_get_db {A} t (body : DB A) :
  keeps body → P t → P (with_get_db t body).2.
Proof.
  intros Hbody Ht. unfold with_get_db.
  specialize (Hbody {| store := t; pending := [] |} Ht).
  by destruct (body _).
Qed.

Lemma keeps_update_loaded env form_data found :
  keeps (update_loaded env form_data found).
Proof.
  destruct found as [r|]; simpl; [|apply keeps_ret].
  apply keeps_bind; [apply keeps_stage | intros _].
  apply keeps_bind; [apply keeps_commit | intros _]. apply keeps_ret.
Qed.

Lemma keeps_delete_loaded env found : keeps (delete_loaded env found).
Proof.
  destruct found as [r|]; simpl; [|apply keeps_ret].
  apply keeps_bind; [apply keeps_delete | intros _].
  apply keeps_bind; [apply keeps_commit | intros _]. apply keeps_ret.
Qed.

Lemma keeps_delete_listed env l : keeps (delete_listed env l).
Proof.
  destruct l as [|r l]; [apply keeps_ret |]. unfold delete_listed.
  apply keeps_bind; [apply keeps_delete_each | intros _].
  apply keeps_bind; [apply keeps_commit | intros _]. apply keeps_ret.
Qed.

Lemma keeps_persist env row : keeps (persist env row).
Proof.
  unfold persist.
  apply keeps_bind; [apply keeps_add | intros _].
  apply keeps_bind; [apply keeps_commit | intros _]. apply keeps_refresh.
Qed.

Lemma insert_keeps env t user_id form_data :
  P t → P (table_after (insert_new_feedback env t user_id form_data)).
Proof.
  intros Ht. unfold insert_new_feedback.
  destruct (FeedbackModel_init _ _) as [feedback|]; [|done].
  pose proof (keeps_with_get_db t _
                (keeps_persist env (Feedback_of_model feedback)) Ht) as Ht'.
  destruct (with_get_db _ _) as [[result|e] t']; simpl in *; [|done].
  by destruct (conversation_memory _ _ _) as [calls []].
Qed.

Lemma reachable_keeps t : P ∅ → reachable t → P t.
Proof.
  intros Hempty. induction 1 as [| | | | | | |]; [done | by apply insert_keeps | ..];
    (apply keeps_with_get_db; [|done]);
    (apply keeps_bind;
      [first [apply keeps_first_by_id | apply keeps_first_by_id_and_user_id
             | apply keeps_all]
      | intros ?;
        first [apply keeps_update_loaded | apply keeps_delete_loaded
              | apply keeps_delete_listed]]).
Qed.
End StoreInvariant.

Lemma apply_change_wf t c t' : table_wf t → apply_change t c = Ok t' → table_wf t'.
Proof.
  intros Hwf. destruct c as [r | r | k]; simpl.
  - destruct (fits_bigint (f_version r)); [|done].
    destruct (t !! f_id r); [done |]. intros [= <-] k r'.
    rewrite lookup_insert. case_decide; [congruence | apply Hwf].
  - destruct (t !! f_id r); [|done]. intros [= <-] k r'.
    rewrite lookup_insert. case_decide; [congruence | apply Hwf].
  - intros [= <-] k' r'. rewrite lookup_delete.
    case_decide; [done | apply Hwf].
Qed.

(** In a reachable table every row is stored under its own identifier. *)
Lemma reachable_wf t : reachable t → table_wf t.
Proof.
  apply (reachable_keeps table_wf apply_change_wf). by intros k r.
Qed.

Lemma reachable_stored t k r : reachable t → t !! k = Some r → stored t r.
Proof.
  intros Hreach Hk. unfold stored.
  by rewrite (reachable_wf t Hreach k r Hk).
Qed.

(** An update changes the version of no row. *)
Lemma update_keeps_version env t r user_id form_data :
  stored t r →
  (∃ r', (update_feedback_by_id env t (f_id r) form_data).2 !! f_id r = Some r' ∧
         f_version r' = f_version r) ∧
  (∃ r', (update_feedback_by_id_and_user_id env t (f_id r) user_id form_data).2
           !! f_id r = Some r' ∧
         f_version r' = f_version r).
Proof.
  intros Hr.
  destruct (assign_form_frame env form_data r) as (_ & _ & Hv & _).
  split.
  - destruct (update_by_id_row env t r form_data Hr) as [H | H];
      eexists; (split; [exact H | done]).
  - destruct (update_by_id_and_user_id_row env t r user_id form_data Hr)
      as [H | H]; eexists; (split; [exact H | done]).
Qed.

(** * Further properties *)

(** ** Keyword arguments *)

Lemma dict_get_None k (d : dict) : dict_get k d = None ↔ k ∉ d.*1.
Proof.
  induction d as [|[k' v'] d IH]; simpl.
  - split; [intros _; apply not_elem_of_nil | done].
  - rewrite not_elem_of_cons.
    destruct (String.eqb k k') eqn:E.
    + apply String.eqb_eq in E. split; [done | by intros []].
    + apply String.eqb_neq in E. rewrite IH. by intuition.
Qed.

Lemma elem_of_dict_set_keys x k v (d : dict) :
  x ∈ (dict_set k v d).*1 ↔ x = k ∨ x ∈ d.*1.
Proof.
  induction d as [|[k' v'] d IH]; simpl.
  - rewrite list_elem_of_singleton, elem_of_nil. tauto.
  - destruct (String.eqb k k') eqn:E; simpl.
    + apply String.eqb_eq in E as <-. rewrite elem_of_cons. tauto.
    + rewrite !elem_of_cons, IH. tauto.
Qed.

Lemma NoDup_dict_set k v (d : dict) : NoDup d.*1 → NoDup (dict_set k v d).*1.
Proof.
  induction d as [|[k' v'] d IH]; simpl.
  - intros _. apply NoDup_singleton.
  - rewrite NoDup_cons. intros [Hk' Hd].
    destruct (String.eqb k k') eqn:E; simpl.
    + by apply NoDup_cons.
    + apply String.eqb_neq in E. apply NoDup_cons. split; [|by apply IH].
      rewrite elem_of_dict_set_keys. by intros [-> | ?].
Qed.

Lemma NoDup_dict_update (d1 d2 : dict) :
  NoDup d1.*1 → NoDup (dict_update d1 d2).*1.
Proof.
  unfold dict_update. revert d1.
  induction d2 as [|[k v] d2 IH]; intros d1 Hd1; simpl; [done |].
  apply IH. by apply NoDup_dict_set.
Qed.

(** In [{**d1, **d2}] an item of [d2] stands for its key. *)
Lemma dict_get_update_eq k v (d1 d2 : dict) :
  NoDup d2.*1 → dict_get k d2 = Some v → dict_get k (dict_update d1 d2) = Some v.
Proof.
  unfold dict_update. revert d1.
  induction d2 as [|[k' v'] d2 IH]; intros d1; simpl; [done |].
  rewrite NoDup_cons. intros [Hk' Hd2].
  destruct (String.eqb k k') eqn:E.
  - apply String.eqb_eq in E as ->. intros [= ->].
    pose proof (dict_get_update_ne k' (dict_set k' v d1) d2) as Hne.
    unfold dict_update in Hne. rewrite Hne by by apply dict_get_None.
    apply dict_get_set_eq.
  - by apply IH.
Qed.

Lemma FeedbackForm_model_dump_NoDup f : NoDup (FeedbackForm_model_dump f).*1.
Proof.
  apply NoDup_dict_update. simpl.
  apply (bool_decide_unpack _). by vm_compute.
Qed.

(** The keyword argument of a field that the form may override: the form's
    item when its dump has one, else the value written first. *)
Lemma new_feedback_kwargs_overridable env user_id form_data k :
  k ∈ overridable_fields →
  dict_get k (new_feedback_kwargs env user_id form_data) =
    match dict_get k (FeedbackForm_model_dump form_data) with
    | Some v => Some v
    | None =>
        dict_get k [("id", JStr (uuid4 env)); ("user_id", JStr user_id);
                    ("version", JNum 0)]
    end.
Proof.
  intros Hk. unfold new_feedback_kwargs.
  rewrite !dict_get_set_ne
    by (intros ->; revert Hk; apply (bool_decide_unpack _); by vm_compute).
  destruct (dict_get k (FeedbackForm_model_dump form_data)) as [v|] eqn:Hdump.
  - apply dict_get_update_eq; [apply FeedbackForm_model_dump_NoDup | done].
  - by apply dict_get_update_ne.
Qed.

(** The item of the form's dump under a key: the declared field, unless an
    extra item has the key. *)
Lemma FeedbackForm_model_dump_get f k :
  dict_get k (extra f) = None →
  dict_get k (FeedbackForm_model_dump f) =
    dict_get k
      [("type", JStr (type f));
       ("data", dump_opt (λ r, JObj (RatingData_model_dump r)) (data f));
       ("meta", dump_opt JObj (meta f));
       ("snapshot", dump_opt (λ s, JObj (SnapshotData_model_dump s)) (snapshot f))].
Proof. intros Hk. unfold FeedbackForm_model_dump. by apply dict_get_update_ne. Qed.

Lemma FeedbackForm_model_dump_extra f k v :
  NoDup (extra f).*1 →
  dict_get k (extra f) = Some v →
  dict_get k (FeedbackForm_model_dump f) = Some v.
Proof. intros Hnd Hk. unfold FeedbackForm_model_dump. by apply dict_get_update_eq. Qed.

(** ** Create, further *)

(** A create that returns a view has committed its row, under an identifier
    that was free. *)
Lemma insert_returned_table env t user_id form_data m :
  returned (insert_new_feedback env t user_id form_data) = Ok (Some m) →
  t !! m_id m = None ∧
  table_after (insert_new_feedback env t user_id form_data)
    = <[m_id m := Feedback_of_model m]> t.
Proof.
  unfold insert_new_feedback.
  destruct (FeedbackModel_init _ _) as [feedback|]; [|done].
  rewrite persist_run.
  destruct (db_fault env) as [[]|]; simpl; try done;
    destruct (fits_bigint (m_version feedback)); simpl; try done;
    destruct (t !! m_id feedback) eqn:Hfresh; simpl; try done;
    destruct (conversation_memory env user_id form_data) as [calls []];
    simpl; try done;
    rewrite model_validate_of_model; by intros [= <-].
Qed.

(** X1: the view that a create returns is the one that the reads by
    identifier, alone or with the view's owner, return afterwards, the query
    going through. *)
Theorem insert_then_read env env' t user_id form_data m :
  returned (insert_new_feedback env t user_id form_data) = Ok (Some m) →
  db_fault env' ≠ Some DbQuery →
  let t' := table_after (insert_new_feedback env t user_id form_data) in
  get_feedback_by_id env' t' (m_id m) = Some m ∧
  get_feedback_by_id_and_user_id env' t' (m_id m) (m_user_id m) = Some m.
Proof.
  intros [_ Htable]%insert_returned_table Hquery. simpl. rewrite Htable.
  unfold get_feedback_by_id, get_feedback_by_id_and_user_id, with_get_db,
    db_first_by_id, db_first_by_id_and_user_id. simpl.
  rewrite db_raises_false by done. rewrite lookup_insert_eq. simpl.
  by rewrite String.eqb_refl, model_validate_of_model.
Qed.

Lemma insert_then_read_witness :
  ∃ m, returned (insert_new_feedback calm_env sample_table "bob" no_message_form)
       = Ok (Some m) ∧
       get_feedback_by_id calm_env
         (table_after (insert_new_feedback calm_env sample_table "bob"
                         no_message_form)) (uuid4 calm_env) = Some m.
Proof.
  eexists. split; [reflexivity |].
  assert (db_fault calm_env ≠ Some DbQuery) as Hquery by discriminate.
  exact (proj1 (insert_then_read calm_env calm_env sample_table "bob"
                  no_message_form _ eq_refl Hquery)).
Defined.

(** X2: in every environment and whatever the form, a create leaves each row
    that the table had as it was; a form that names the identifier of such a
    row does not replace it. *)
Theorem insert_keeps_existing_rows env t user_id form_data k r :
  t !! k = Some r →
  table_after (insert_new_feedback env t user_id form_data) !! k = Some r.
Proof.
  intros Hk. unfold insert_new_feedback.
  destruct (FeedbackModel_init _ _) as [feedback|]; [|done].
  rewrite persist_run.
  assert ((<[m_id feedback := Feedback_of_model feedback]> t) !! k = Some r
          ∨ is_Some (t !! m_id feedback)) as Hcase.
  { destruct (t !! m_id feedback) eqn:Hid; [by right; eexists |].
    left. rewrite lookup_insert_ne; [done | congruence]. }
  destruct (db_fault env) as [[]|]; simpl; try done;
    destruct (fits_bigint (m_version feedback)); simpl; try done;
    destruct (t !! m_id feedback) eqn:Hfresh; simpl; try done;
    destruct Hcase as [Hcase | [? [=]]];
    by destruct (conversation_memory env user_id form_data) as [calls []].
Qed.

Lemma insert_keeps_existing_rows_witness :
  sample_table !! "f1" = Some sample_row ∧
  table_after (insert_new_feedback calm_env sample_table "bob"
                 {| type := "rating"; data := None; meta := None;
                    snapshot := None; extra := [("id", JStr "f1")] |}) !! "f1"
    = Some sample_row.
Proof.
  split; [reflexivity |].
  apply (insert_keeps_existing_rows calm_env sample_table "bob"). reflexivity.
Defined.

(** X3: a form without extra items named after the fields of a record is
    always validated, into the identifier drawn, the user given, version 0,
    the form's type and payloads and the two readings of the clock; that is
    the only view such a create returns, and with the database working and
    the identifier free its row is stored. *)
Theorem insert_plain_form env t user_id form_data :
  Forall (λ k, dict_get k (extra form_data) = None) overridable_fields →
  let feedback :=
    {| m_id := uuid4 env; m_user_id := user_id; m_version := 0;
       m_type := type form_data;
       m_data := RatingData_model_dump <$> data form_data;
       m_meta := meta form_data;
       m_snapshot := SnapshotData_model_dump <$> snapshot form_data;
       m_created_at := time_time env 0; m_updated_at := time_time env 1 |} in
  let c := insert_new_feedback env t user_id form_data in
  FeedbackModel_init env (new_feedback_kwargs env user_id form_data) = Ok feedback ∧
  (∀ m, returned c = Ok (Some m) → m = feedback) ∧
  (db_fault env = None → t !! uuid4 env = None →
   stored (table_after c) (Feedback_of_model feedback)).
Proof.
  intros Hextra. simpl.
  assert (∀ k, k ∈ overridable_fields →
            dict_get k (new_feedback_kwargs env user_id form_data) =
              dict_get k
                [("id", JStr (uuid4 env)); ("user_id", JStr user_id);
                 ("version", JNum 0); ("type", JStr (type form_data));
                 ("data", dump_opt (λ r, JObj (RatingData_model_dump r))
                            (data form_data));
                 ("meta", dump_opt JObj (meta form_data));
                 ("snapshot", dump_opt (λ s, JObj (SnapshotData_model_dump s))
                                (snapshot form_data))]) as Hget.
  { intros k Hk. rewrite new_feedback_kwargs_overridable by done.
    rewrite FeedbackForm_model_dump_get
      by (by eapply (proj1 (Forall_forall _ _)) in Hextra).
    revert Hk. unfold overridable_fields. rewrite !elem_of_cons, elem_of_nil.
    intros [-> | [-> | [-> | [-> | [-> | [-> | [-> | []]]]]]]]; reflexivity. }
  assert (FeedbackModel_init env (new_feedback_kwargs env user_id form_data)
          = Ok {| m_id := uuid4 env; m_user_id := user_id; m_version := 0;
                  m_type := type form_data;
                  m_data := RatingData_model_dump <$> data form_data;
                  m_meta := meta form_data;
                  m_snapshot := SnapshotData_model_dump <$> snapshot form_data;
                  m_created_at := time_time env 0;
                  m_updated_at := time_time env 1 |}) as Hinit.
  { unfold FeedbackModel_init, field_str, field_int, field_opt_dict.
    rewrite (Hget "id"), (Hget "user_id"), (Hget "version"), (Hget "type"),
      (Hget "data"), (Hget "meta"), (Hget "snapshot")
      by (apply (bool_decide_unpack _); by vm_compute).
    unfold new_feedback_kwargs.
    rewrite dict_get_set_eq.
    rewrite dict_get_set_ne, dict_get_set_eq by done. simpl.
    by destruct (data form_data), (meta form_data), (snapshot form_data). }
  split; [done | split].
  - intros m Hm%insert_returned. congruence.
  - intros Hdb Hfresh.
    rewrite (insert_committed _ _ _ _ _ Hinit Hdb Hfresh eq_refl). simpl.
    unfold stored. simpl. apply lookup_insert_eq.
Qed.

Lemma insert_plain_form_witness :
  Forall (λ k, dict_get k (extra scenario_form) = None) overridable_fields ∧
  ∃ m, returned (insert_new_feedback ticking_env sample_table "bob" scenario_form)
       = Ok (Some m) ∧
       m_user_id m = "bob" ∧ m_version m = 0 ∧ m_meta m = meta scenario_form.
Proof.
  assert (Forall (λ k, dict_get k (extra scenario_form) = None) overridable_fields)
    as Hextra by (repeat constructor).
  split; [exact Hextra |].
  destruct (insert_plain_form ticking_env sample_table "bob" scenario_form Hextra)
    as (_ & Hview & _).
  eexists. split; [reflexivity |].
  by rewrite (Hview _ eq_refl).
Defined.

(** X4: an extra item of the form named [user_id], [id] or [version] takes
    the place of the user given, of the identifier drawn and of version 0 in
    the view that a create returns. *)
Theorem insert_extra_items_override env t user_id form_data m :
  NoDup (extra form_data).*1 →
  returned (insert_new_feedback env t user_id form_data) = Ok (Some m) →
  (∀ u, dict_get "user_id" (extra form_data) = Some (JStr u) → m_user_id m = u) ∧
  (∀ i, dict_get "id" (extra form_data) = Some (JStr i) → m_id m = i) ∧
  (∀ n, dict_get "version" (extra form_data) = Some (JNum n) → m_version m = n).
Proof.
  intros Hnd (Hid & Hu & Hv & _)%insert_returned%FeedbackModel_init_Ok.
  unfold field_str, field_int in *.
  rewrite new_feedback_kwargs_overridable in Hid, Hu, Hv
    by (apply (bool_decide_unpack _); by vm_compute).
  repeat split; intros x Hx;
    apply (FeedbackForm_model_dump_extra _ _ _ Hnd) in Hx;
    rewrite Hx in *; congruence.
Qed.

Lemma insert_extra_items_override_witness :
  NoDup (extra impersonating_form).*1 ∧
  ∃ m, returned (insert_new_feedback calm_env sample_table "alice"
                   impersonating_form) = Ok (Some m) ∧
       m_user_id m = "bob" ∧ m_id m = "f9".
Proof.
  assert (NoDup (extra impersonating_form).*1) as Hnd
    by (apply (bool_decide_unpack _); by vm_compute).
  split; [exact Hnd |].
  eexists. split; [reflexivity |].
  destruct (insert_extra_items_override calm_env sample_table "alice"
              impersonating_form _ Hnd eq_refl) as (Hu & Hi & _).
  split; [by apply Hu | by apply Hi].
Defined.

(** ** The side effect, further *)

Lemma dict_get_Some_cons k v (d : dict) : dict_get k d = Some v → ∃ kv d', d = kv :: d'.
Proof. destruct d as [|kv d']; [done | by exists kv, d']. Qed.

Lemma insert_calls env t user_id form_data :
  add_text_calls (insert_new_feedback env t user_id form_data) = [] ∨
  add_text_calls (insert_new_feedback env t user_id form_data)
    = (conversation_memory env user_id form_data).1.
Proof.
  unfold insert_new_feedback.
  destruct (FeedbackModel_init _ _) as [feedback|]; [|by left].
  destruct (with_get_db _ _) as [[] ?]; [|by left].
  right. by destruct (conversation_memory env user_id form_data) as [calls []].
Qed.

Lemma positive_feedback_true f :
  positive_feedback f = true →
  rating_of f = Some (inr 1) ∧
  ∃ mid, message_id_of f = Some mid ∧ truthy mid = true.
Proof.
  unfold positive_feedback, rating_of, message_id_of.
  destruct (data f) as [d|]; simpl; [|done].
  destruct (snapshot f) as [s|]; simpl; [|by rewrite andb_false_r].
  destruct (meta f) as [md|]; simpl; [|by rewrite !andb_false_r].
  rewrite !andb_true_iff, bool_decide_eq_true.
  intros (Hr & [[_ _] Hmid]). split; [done |].
  destruct (dict_get "message_id" md) as [mid|]; simpl in *; [|done].
  by exists mid.
Qed.

Lemma conversation_excerpt_shape env user_id f call :
  conversation_excerpt env user_id f = Ok (Some call) →
  collection_name call = "conversation_memory_" ++ user_id ∧
  ∃ mid, message_id_of f = Some mid ∧
         metadata call = [("source", JStr "feedback"); ("message_id", mid)].
Proof.
  unfold conversation_excerpt, message_id_of.
  destruct (snapshot f ≫= chat) as [c|]; [|done].
  destruct (meta f) as [md|]; [|done]. simpl.
  destruct (dict_get "history" c) as [h|]; simpl; [|done].
  destruct (dict_get "message_id" md) as [mid|]; simpl; [|done].
  destruct (py_getitem h (JStr "messages")) as [msgs|]; simpl; [|done].
  destruct (py_contains mid msgs) as [[|]|]; simpl; [|done..].
  destruct (py_getitem msgs mid) as [resp|]; simpl; [|done].
  destruct (py_get resp "parentId") as [pid|]; simpl; [|done].
  destruct (if truthy pid then py_contains pid msgs else Ok false)
    as [[|]|]; simpl; [|done..].
  destruct (py_getitem msgs pid) as [usr|]; simpl; [|done].
  destruct (py_getitem usr (JStr "content")) as [uc|]; simpl; [|done].
  destruct (py_getitem resp (JStr "content")) as [rc|]; simpl; [|done].
  intros [= <-]. simpl. split; [done |]. by exists mid.
Qed.

(** X5: in every environment a create calls the sink at most once, and a
    call it makes is for a form rated with the number 1, names the collection
    after the user given to the create, and carries as metadata the source
    [feedback] and the message identifier of the form's [meta]. *)
Theorem insert_sink_call_shape env t user_id form_data call :
  call ∈ add_text_calls (insert_new_feedback env t user_id form_data) →
  add_text_calls (insert_new_feedback env t user_id form_data) = [call] ∧
  rating_of form_data = Some (inr 1) ∧
  collection_name call = "conversation_memory_" ++ user_id ∧
  ∃ mid, message_id_of form_data = Some mid ∧ truthy mid = true ∧
         metadata call = [("source", JStr "feedback"); ("message_id", mid)].
Proof.
  destruct (insert_calls env t user_id form_data) as [-> | ->];
    [by intros ?%elem_of_nil |].
  unfold conversation_memory.
  destruct (positive_feedback form_data) eqn:Hguard;
    [|by intros ?%elem_of_nil].
  destruct (positive_feedback_true _ Hguard) as (Hrating & mid & Hmid & Htruthy).
  destruct (conversation_excerpt env user_id form_data) as [[call'|]|] eqn:Hex;
    [| by intros ?%elem_of_nil..].
  destruct (conversation_excerpt_shape _ _ _ _ Hex) as (Hcoll & mid' & Hmid' & Hmeta).
  assert (mid' = mid) as -> by congruence.
  destruct (pipeline_fault env) as [[]|]; simpl;
    rewrite ?elem_of_nil, ?list_elem_of_singleton; try done;
    intros ->; (split; [done |]); (split; [done |]); (split; [done |]);
    by exists mid.
Qed.

Lemma insert_sink_call_shape_witness :
  ∃ call,
    call ∈ add_text_calls (insert_new_feedback calm_env sample_table "carol"
                             numeric_form) ∧
    collection_name call = "conversation_memory_carol" ∧
    metadata call = [("source", JStr "feedback"); ("message_id", JStr "a")].
Proof.
  eexists. split; [apply list_elem_of_singleton; reflexivity |].
  edestruct (insert_sink_call_shape calm_env sample_table "carol" numeric_form)
    as (_ & _ & Hcoll & mid & Hmid & _ & Hmeta);
    [apply list_elem_of_singleton; reflexivity |].
  split; [exact Hcoll |].
  injection Hmid as <-. exact Hmeta.
Defined.

(** The side effect on a form that rates a message of a well-formed
    snapshot, by what the snapshot holds under the message. *)
Lemma rated_message_excerpt env user_id f msgs mid :
  rated_message f msgs mid →
  positive_feedback f = true ∧
  conversation_excerpt env user_id f =
    match dict_get mid msgs with
    | None => Ok None
    | Some response_message =>
        user_message_id ← py_get response_message "parentId";
        found' ← (if truthy user_message_id
                  then py_contains user_message_id (JObj msgs) else Ok false);
        if found' : bool then
          user_message ← py_getitem (JObj msgs) user_message_id;
          user_content ← py_getitem user_message (JStr "content");
          response_content ← py_getitem response_message (JStr "content");
          Ok (Some {|
            text := "User: " ++ py_str env user_content ++ newline ++
                    "Assistant: " ++ py_str env response_content;
            collection_name := "conversation_memory_" ++ user_id;
            metadata := [("source", JStr "feedback"); ("message_id", JStr mid)]
          |})
        else Ok None
    end.
Proof.
  unfold rated_message, rating_of, chat_of, message_id_of, positive_feedback,
    conversation_excerpt.
  intros (Hrating & (c & h & Hchat & Hh & Hmsgs) & Hmid & Hne).
  destruct (data f) as [d|]; simpl in *; [|done].
  destruct (snapshot f) as [s|]; simpl in *; [|done].
  destruct (meta f) as [md|]; simpl in *; [|done].
  rewrite Hchat, Hmid, Hh. simpl. rewrite Hmsgs. simpl.
  destruct (dict_get_Some_cons _ _ _ Hh) as (? & ? & ->).
  destruct (dict_get_Some_cons _ _ _ Hmid) as (? & ? & ->).
  split.
  - rewrite bool_decide_eq_true_2 by done. simpl.
    apply negb_true_iff. by apply String.eqb_neq.
  - by destruct (dict_get mid msgs) as [resp|].
Qed.



(** X7: when the form rates with 1 a message that the snapshot does not hold,
    or one whose [parentId] is missing, null or empty, or names a message
    that the snapshot does not hold, a create calls no sink, and returns the
    persisted view when the version of the validated form fits its column,
    the database works and the identifier is free. *)
Theorem insert_skips_unmatched_message env t user_id form_data msgs mid :
  rated_message form_data msgs mid →
  dict_get mid msgs = None ∨
  (∃ resp, dict_get mid msgs = Some (JObj resp) ∧
     (truthy (default JNull (dict_get "parentId" resp)) = false ∨
      ∃ pid, dict_get "parentId" resp = Some (JStr pid) ∧
             dict_get pid msgs = None)) →
  let c := insert_new_feedback env t user_id form_data in
  add_text_calls c = [] ∧
  (∀ feedback,
     FeedbackModel_init env (new_feedback_kwargs env user_id form_data)
       = Ok feedback →
     db_fault env = None →
     t !! m_id feedback = None →
     fits_bigint (m_version feedback) = true →
     returned c = Ok (Some feedback)).
Proof.
  intros Hrated Hcase. simpl.
  assert (conversation_memory env user_id form_data = ([], Ok ())) as Hmem.
  { unfold conversation_memory.
    destruct (rated_message_excerpt env user_id _ _ _ Hrated) as [-> ->].
    destruct Hcase as [-> | (resp & -> & [Hfalsy | (pid & Hparent & Hpid)])];
      [done | |]; simpl.
    - by rewrite Hfalsy.
    - rewrite Hparent. simpl. rewrite Hpid.
      by destruct (negb (String.eqb pid "")). }
  split.
  - destruct (insert_calls env t user_id form_data) as [-> | ->]; [done |].
    by rewrite Hmem.
  - intros feedback Hinit Hdb Hfresh Hfits.
    rewrite (insert_committed _ _ _ _ _ Hinit Hdb Hfresh Hfits). simpl.
    by rewrite Hmem.
Qed.

Lemma insert_skips_unmatched_message_witness :
  (∃ msgs, rated_message orphan_form msgs "msg1" ∧
           ∃ resp, dict_get "msg1" msgs = Some (JObj resp) ∧
                   dict_get "parentId" resp = Some JNull) ∧
  add_text_calls (insert_new_feedback calm_env sample_table "alice" orphan_form)
    = [] ∧
  ∃ m, returned (insert_new_feedback calm_env sample_table "alice" orphan_form)
       = Ok (Some m).
Proof.
  assert (rated_message orphan_form
            [("msg1", JObj [("content", JStr "hi"); ("parentId", JNull)]);
             ("msg2", JObj [("content", JStr "hello back");
                            ("parentId", JStr "msg1")])] "msg1") as Hrated.
  { split; [reflexivity |]. split; [| split; [reflexivity | discriminate]].
    eexists _, _. repeat split; reflexivity. }
  split.
  { eexists. split; [exact Hrated |]. eexists. split; reflexivity. }
  destruct (insert_skips_unmatched_message calm_env sample_table "alice"
              orphan_form _ "msg1" Hrated) as [Hcalls Hret].
  { right. eexists. split; [reflexivity |]. left. reflexivity. }
  split; [exact Hcalls |].
  eexists. apply Hret; reflexivity.
Defined.

(** ** Update, further *)

(** Either update of an identifier that the table does not hold. *)
Lemma update_absent_run env t id user_id form_data :
  t !! id = None →
  update_feedback_by_id env t id form_data
    = (if db_raises env DbQuery then Raise DBAPIError else Ok None, t) ∧
  update_feedback_by_id_and_user_id env t id user_id form_data
    = (if db_raises env DbQuery then Raise DBAPIError else Ok None, t).
Proof.
  intros Hid.
  unfold update_feedback_by_id, update_feedback_by_id_and_user_id, with_get_db,
    db_first_by_id, db_first_by_id_and_user_id.
  unfold mbind at 1 2. unfold DB_bind. simpl. rewrite Hid.
  by destruct (db_raises env DbQuery).
Qed.

(** X8: an update of an identifier that the table does not hold returns
    [None], or raises when its query does, and leaves the table as it was,
    under either update. *)
Theorem update_absent env t id user_id form_data :
  t !! id = None →
  update_feedback_by_id env t id form_data
    = (if db_raises env DbQuery then Raise DBAPIError else Ok None, t) ∧
  update_feedback_by_id_and_user_id env t id user_id form_data
    = (if db_raises env DbQuery then Raise DBAPIError else Ok None, t).
Proof.
  intros Hid.
  destruct (update_absent_run env t id user_id form_data Hid) as [Hrun Hscoped].
  split; [exact Hrun | exact Hscoped].
Qed.

Lemma update_absent_witness :
  sample_table !! "f7" = None ∧
  update_feedback_by_id calm_env sample_table "f7" retyped_form
    = (Ok None, sample_table).
Proof.
  split; [reflexivity |].
  exact (proj1 (update_absent calm_env sample_table "f7" "alice" retyped_form
                  eq_refl)).
Defined.

(** X9: the update scoped to a user who does not own the stored row changes
    nothing and answers as it does for an identifier that the table does not
    hold. *)
Theorem update_by_other_user env t r user_id form_data :
  stored t r →
  user_id ≠ f_user_id r →
  update_feedback_by_id_and_user_id env t (f_id r) user_id form_data
    = (if db_raises env DbQuery then Raise DBAPIError else Ok None, t).
Proof.
  intros Hr Huser. rewrite update_by_id_and_user_id_stored by done.
  assert (String.eqb (f_user_id r) user_id = false) as ->
    by (apply String.eqb_neq; congruence).
  unfold db_raises. by destruct (db_fault env) as [[]|].
Qed.

Lemma update_by_other_user_witness :
  stored sample_table sample_row ∧
  update_feedback_by_id_and_user_id calm_env sample_table "f1" "bob" retyped_form
    = (Ok None, sample_table).
Proof.
  split; [reflexivity |].
  apply (update_by_other_user calm_env sample_table sample_row "bob" retyped_form);
    [reflexivity | discriminate].
Defined.

(** The table that an update leaves: the one it found, or that one with the
    row under the identifier replaced by the row assigned from the form. *)
Lemma update_table_cases env t id user_id form_data :
  table_wf t →
  ((update_feedback_by_id env t id form_data).2 = t ∨
   ∃ r, t !! id = Some r ∧
        (update_feedback_by_id env t id form_data).1
          = Ok (Some (model_validate (assign_form env form_data r))) ∧
        (update_feedback_by_id env t id form_data).2
          = <[id := assign_form env form_data r]> t) ∧
  ((update_feedback_by_id_and_user_id env t id user_id form_data).2 = t ∨
   ∃ r, t !! id = Some r ∧
        (update_feedback_by_id_and_user_id env t id user_id form_data).1
          = Ok (Some (model_validate (assign_form env form_data r))) ∧
        (update_feedback_by_id_and_user_id env t id user_id form_data).2
          = <[id := assign_form env form_data r]> t).
Proof.
  intros Hwf.
  destruct (decide (is_Some (t !! id))) as [[r Hid] | Hid%eq_None_not_Some].
  - pose proof (Hwf _ _ Hid) as Hkey. subst id.
    rewrite update_by_id_and_user_id_stored, update_by_id_stored by exact Hid.
    split.
    + destruct (db_fault env) as [[]|]; simpl; first [by left | right; by exists r].
    + destruct (db_fault env) as [[]|]; simpl;
        destruct (String.eqb (f_user_id r) user_id); simpl;
        first [by left | right; by exists r].
  - destruct (update_absent_run env t id user_id form_data Hid) as [-> ->].
    by split; left.
Qed.

(** X10: under either update of a table in which every row is stored under
    its identifier, every row under another identifier than the one updated
    stays as it was; and an update that raises, or returns [None], leaves
    the whole table as it was. *)
Theorem update_touches_one_row env t id user_id form_data :
  table_wf t →
  (∀ k, k ≠ id →
        (update_feedback_by_id env t id form_data).2 !! k = t !! k ∧
        (update_feedback_by_id_and_user_id env t id user_id form_data).2 !! k
          = t !! k) ∧
  ((∀ m, (update_feedback_by_id env t id form_data).1 ≠ Ok (Some m)) →
   (update_feedback_by_id env t id form_data).2 = t) ∧
  ((∀ m, (update_feedback_by_id_and_user_id env t id user_id form_data).1
         ≠ Ok (Some m)) →
   (update_feedback_by_id_and_user_id env t id user_id form_data).2 = t).
Proof.
  intros Hwf.
  destruct (update_table_cases env t id user_id form_data Hwf)
    as [[H1 | (r1 & _ & Hret1 & H1)] [H2 | (r2 & _ & Hret2 & H2)]];
    rewrite ?H1, ?H2; (split; [| split]);
    try (intros k Hk; rewrite ?lookup_insert_ne by done; done);
    try done;
    intros Hnone; exfalso; eapply Hnone; eassumption.
Qed.

Lemma table_wf_insert t r : table_wf t → table_wf (<[f_id r := r]> t).
Proof.
  intros Hwf k r'. rewrite lookup_insert.
  case_decide; [congruence | apply Hwf].
Qed.

Lemma three_rows_wf : table_wf three_rows.
Proof.
  apply (table_wf_insert _ later_row), (table_wf_insert _ bob_row),
    (table_wf_insert ∅ sample_row).
  by intros k r.
Qed.

Lemma update_touches_one_row_witness :
  table_wf three_rows ∧
  (update_feedback_by_id calm_env three_rows "f1" retyped_form).2 !! "f2"
    = Some bob_row ∧
  (update_feedback_by_id (with_db_fault DbCommit calm_env) three_rows "f1"
     retyped_form).2 = three_rows.
Proof.
  pose proof three_rows_wf as Hwf.
  split; [exact Hwf |]. split.
  - destruct (update_touches_one_row calm_env three_rows "f1" "alice"
                retyped_form Hwf) as (Hframe & _).
    destruct (Hframe "f2") as [-> _]; [discriminate | reflexivity].
  - destruct (update_touches_one_row (with_db_fault DbCommit calm_env)
                three_rows "f1" "alice" retyped_form Hwf) as (_ & Hatomic & _).
    apply Hatomic. intros m. done.
Defined.



(** ** Delete *)

Lemma delete_loaded_run env t r :
  delete_loaded env (Some r) {| store := t; pending := [] |} =
    if db_raises env DbDelete || db_raises env DbCommit
    then (Raise DBAPIError, {| store := t; pending := [] |})
    else (Ok true, {| store := delete (f_id r) t; pending := [] |}).
Proof.
  unfold delete_loaded, mbind, mret, DB_bind, DB_ret, db_delete, db_stage,
    db_commit.
  by destruct (db_raises env DbDelete), (db_raises env DbCommit).
Qed.

Lemma delete_by_id_run env t id :
  delete_feedback_by_id env t id =
    if db_raises env DbQuery then (Raise DBAPIError, t)
    else match t !! id with
         | None => (Ok false, t)
         | Some r =>
             if db_raises env DbDelete || db_raises env DbCommit
             then (Raise DBAPIError, t)
             else (Ok true, delete (f_id r) t)
         end.
Proof.
  unfold delete_feedback_by_id, with_get_db, db_first_by_id.
  unfold mbind at 1. unfold DB_bind. simpl.
  destruct (db_raises env DbQuery); [done |].
  destruct (t !! id) as [r|]; [|done].
  rewrite delete_loaded_run. by destruct (_ || _).
Qed.

Lemma delete_by_id_and_user_id_run env t id user_id :
  delete_feedback_by_id_and_user_id env t id user_id =
    if db_raises env DbQuery then (Raise DBAPIError, t)
    else match t !! id with
         | None => (Ok false, t)
         | Some r =>
             if String.eqb (f_user_id r) user_id
             then delete_feedback_by_id env t id
             else (Ok false, t)
         end.
Proof.
  rewrite delete_by_id_run.
  unfold delete_feedback_by_id_and_user_id, with_get_db,
    db_first_by_id_and_user_id.
  unfold mbind at 1. unfold DB_bind. simpl.
  destruct (db_raises env DbQuery); [done |].
  destruct (t !! id) as [r|]; [|done].
  destruct (String.eqb (f_user_id r) user_id); [|done].
  rewrite delete_loaded_run. by destruct (_ || _).
Qed.

(** X12: with the database working, the delete of a stored row, by its
    identifier alone or with its owner, returns [True] and removes that row
    and no other: afterwards the read by the identifier returns [None] and
    every other identifier holds what it held. *)
Theorem delete_stored env env' t r :
  stored t r →
  db_fault env = None →
  delete_feedback_by_id env t (f_id r) = (Ok true, delete (f_id r) t) ∧
  delete_feedback_by_id_and_user_id env t (f_id r) (f_user_id r)
    = (Ok true, delete (f_id r) t) ∧
  get_feedback_by_id env' (delete (f_id r) t) (f_id r) = None ∧
  (∀ k, k ≠ f_id r → delete (f_id r) t !! k = t !! k).
Proof.
  intros Hr Hdb. unfold stored in Hr.
  rewrite delete_by_id_and_user_id_run, delete_by_id_run.
  rewrite !db_raises_false by (rewrite Hdb; done).
  rewrite Hr, String.eqb_refl. simpl. repeat split.
  - unfold get_feedback_by_id, with_get_db, db_first_by_id. simpl.
    destruct (db_raises env' DbQuery); [done |]. by rewrite lookup_delete_eq.
  - intros k Hk. by rewrite lookup_delete_ne.
Qed.

Lemma delete_stored_witness :
  stored three_rows bob_row ∧
  delete_feedback_by_id calm_env three_rows "f2" = (Ok true, delete "f2" three_rows) ∧
  get_feedback_by_id calm_env (delete "f2" three_rows) "f2" = None ∧
  delete "f2" three_rows !! "f1" = Some sample_row.
Proof.
  split; [reflexivity |].
  destruct (delete_stored calm_env calm_env three_rows bob_row)
    as (Hrun & _ & Hgone & Hothers); [reflexivity | reflexivity |].
  split; [exact Hrun |]. split; [exact Hgone |].
  etrans; [apply (Hothers "f1"); discriminate | reflexivity].
Defined.

(** X13: the delete of an identifier that the table does not hold, and the
    delete scoped to a user who does not own the stored row, return [False]
    (or raise when the query does) and leave the table as it was. *)
Theorem delete_absent_or_other_user env t :
  (∀ id user_id,
     t !! id = None →
     delete_feedback_by_id env t id
       = (if db_raises env DbQuery then Raise DBAPIError else Ok false, t) ∧
     delete_feedback_by_id_and_user_id env t id user_id
       = (if db_raises env DbQuery then Raise DBAPIError else Ok false, t)) ∧
  (∀ r user_id,
     stored t r →
     user_id ≠ f_user_id r →
     delete_feedback_by_id_and_user_id env t (f_id r) user_id
       = (if db_raises env DbQuery then Raise DBAPIError else Ok false, t)).
Proof.
  split.
  - intros id user_id Hid.
    rewrite delete_by_id_and_user_id_run, delete_by_id_run, Hid.
    by destruct (db_raises env DbQuery).
  - intros r user_id Hr Huser. unfold stored in Hr.
    rewrite delete_by_id_and_user_id_run, Hr.
    assert (String.eqb (f_user_id r) user_id = false) as ->
      by (apply String.eqb_neq; congruence).
    by destruct (db_raises env DbQuery).
Qed.

(** The deletes of a list of rows, and the flush of them. *)
Lemma db_delete_each_run env l s :
  db_raises env DbDelete = false →
  db_delete_each env l s =
    (Ok (), {| store := store s;
               pending := pending s ++ ((λ r, Delete (f_id r)) <$> l) |}).
Proof.
  intros Hdel. revert s. induction l as [|r l IH]; intros s; simpl.
  - unfold mret, DB_ret. rewrite app_nil_r. by destruct s.
  - unfold mbind, DB_bind, db_delete, db_stage. rewrite Hdel. simpl.
    rewrite IH. simpl. by rewrite <- app_assoc.
Qed.

Lemma flush_deletes t l :
  flush t ((λ r, Delete (f_id r)) <$> l) = Ok (delete_rows t l).
Proof.
  unfold delete_rows. revert t.
  induction l as [|r l IH]; intros t; simpl; [done | apply IH].
Qed.

Lemma delete_rows_lookup t l k :
  delete_rows t l !! k = if decide (k ∈ f_id <$> l) then None else t !! k.
Proof.
  unfold delete_rows. revert t.
  induction l as [|r l IH]; intros t; [done |].
  rewrite fmap_cons. cbn [foldl]. rewrite IH.
  - destruct (decide (k ∈ f_id <$> l)) as [Hin | Hnin].
    + rewrite decide_True; [done | apply elem_of_cons; by right].
    + destruct (decide (k = f_id r)) as [-> | Hne].
      * rewrite decide_True by (apply elem_of_cons; by left).
        apply lookup_delete_eq.
      * rewrite decide_False by (rewrite elem_of_cons; by intros [|]).
        by rewrite lookup_delete_ne.
Qed.

Lemma delete_listed_run env t l :
  delete_listed env l {| store := t; pending := [] |} =
    match l with
    | [] => (Ok false, {| store := t; pending := [] |})
    | r :: _ =>
        if db_raises env DbDelete
        then (Raise DBAPIError, {| store := t; pending := [] |})
        else if db_raises env DbCommit
        then (Raise DBAPIError, {| store := t; pending := [] |})
        else (Ok true, {| store := delete_rows t l; pending := [] |})
    end.
Proof.
  destruct l as [|r l]; [done |]. unfold delete_listed.
  unfold mbind at 1. unfold DB_bind.
  destruct (db_raises env DbDelete) eqn:Hdel.
  - simpl. unfold mbind, DB_bind, db_delete. by rewrite Hdel.
  - rewrite db_delete_each_run by done. simpl.
    unfold mbind, mret, DB_bind, DB_ret, db_commit. simpl.
    destruct (db_raises env DbCommit); [done |].
    change (Delete (f_id r) :: ((λ r, Delete (f_id r)) <$> l))
      with ((λ r, Delete (f_id r)) <$> (r :: l)).
    by rewrite flush_deletes.
Qed.

Lemma delete_selected_run env t p :
  with_get_db t (feedbacks ← db_all env p; delete_listed env feedbacks) =
    if db_raises env DbQuery then (Raise DBAPIError, t)
    else match selected t p with
         | [] => (Ok false, t)
         | _ :: _ =>
             if db_raises env DbDelete || db_raises env DbCommit
             then (Raise DBAPIError, t)
             else (Ok true, delete_rows t (selected t p))
         end.
Proof.
  unfold with_get_db, db_all. unfold mbind at 1. unfold DB_bind. simpl.
  destruct (db_raises env DbQuery); [done |].
  fold (selected t p). rewrite delete_listed_run.
  destruct (selected t p) as [|r l]; [done |].
  by destruct (db_raises env DbDelete), (db_raises env DbCommit).
Qed.

(** The identifiers of the rows selected, in a table whose rows are stored
    under their identifiers. *)
Lemma elem_of_selected t p r :
  r ∈ selected t p ↔ p r = true ∧ ∃ k, t !! k = Some r.
Proof.
  unfold selected. rewrite list_elem_of_filter, list_elem_of_fmap.
  split.
  - intros [Hp ([k r'] & -> & Hkr%elem_of_map_to_list)]. eauto.
  - intros [Hp [k Hk]]. split; [done |].
    exists (k, r). split; [done | by apply elem_of_map_to_list].
Qed.

Lemma delete_selected_lookup t p k :
  table_wf t →
  delete_rows t (selected t p) !! k =
    match t !! k with
    | Some r => if p r then None else Some r
    | None => None
    end.
Proof.
  intros Hwf. rewrite delete_rows_lookup.
  destruct (t !! k) as [r|] eqn:Hk.
  - destruct (p r) eqn:Hp.
    + rewrite decide_True; [done |].
      apply list_elem_of_fmap. exists r. split; [by rewrite (Hwf _ _ Hk) |].
      apply elem_of_selected. eauto.
    + rewrite decide_False; [done |].
      intros (r' & -> & [Hp' [k' Hk']]%elem_of_selected)%list_elem_of_fmap.
      rewrite (Hwf _ _ Hk') in Hk. congruence.
  - by case_decide.
Qed.

Lemma delete_absent_or_other_user_witness :
  three_rows !! "f7" = None ∧
  stored three_rows bob_row ∧
  delete_feedback_by_id calm_env three_rows "f7" = (Ok false, three_rows) ∧
  delete_feedback_by_id_and_user_id calm_env three_rows "f2" "alice"
    = (Ok false, three_rows).
Proof.
  split; [reflexivity |]. split; [reflexivity |].
  destruct (delete_absent_or_other_user calm_env three_rows) as [Habsent Hother].
  split.
  - exact (proj1 (Habsent "f7" "alice" eq_refl)).
  - apply (Hother bob_row "alice"); [reflexivity | discriminate].
Defined.

(** X14: with the database working, on a table whose rows are stored under
    their identifiers, the delete of a user's rows removes exactly the rows
    of that user; it returns [True] when there was one, and [False], the
    table staying as it was, when there was none. *)
Theorem delete_by_user env t user_id :
  table_wf t →
  db_fault env = None →
  let res := delete_feedbacks_by_user_id env t user_id in
  (∀ k, res.2 !! k =
        match t !! k with
        | Some r => if String.eqb (f_user_id r) user_id then None else Some r
        | None => None
        end) ∧
  ((res.1 = Ok true ∧ ∃ k r, t !! k = Some r ∧ f_user_id r = user_id) ∨
   (res.1 = Ok false ∧ res.2 = t ∧
    ∀ k r, t !! k = Some r → f_user_id r ≠ user_id)).
Proof.
  intros Hwf Hdb. simpl. unfold delete_feedbacks_by_user_id.
  rewrite delete_selected_run.
  rewrite !db_raises_false by (rewrite Hdb; done). simpl.
  destruct (selected t _) as [|r l] eqn:Hsel.
  - assert (∀ k r, t !! k = Some r → f_user_id r ≠ user_id) as Hnone.
    { intros k r Hk Hu.
      assert (r ∈ selected t (λ r, String.eqb (f_user_id r) user_id)) as Hin.
      { apply elem_of_selected. split; [by apply String.eqb_eq | eauto]. }
      rewrite Hsel in Hin. by apply elem_of_nil in Hin. }
    split; [| right; done].
    intros k. simpl. destruct (t !! k) as [r|] eqn:Hk; [|done].
    by apply Hnone, String.eqb_neq in Hk as ->.
  - rewrite <- Hsel. simpl. split.
    + intros k. by apply delete_selected_lookup.
    + left. split; [done |].
      assert (r ∈ selected t (λ r, String.eqb (f_user_id r) user_id)) as Hin
        by (rewrite Hsel; apply elem_of_cons; by left).
      apply elem_of_selected in Hin as [Hu%String.eqb_eq [k Hk]]. eauto.
Qed.

Lemma delete_by_user_witness :
  table_wf three_rows ∧
  (delete_feedbacks_by_user_id calm_env three_rows "alice").1 = Ok true ∧
  (delete_feedbacks_by_user_id calm_env three_rows "alice").2 !! "f1" = None ∧
  (delete_feedbacks_by_user_id calm_env three_rows "alice").2 !! "f2"
    = Some bob_row ∧
  (delete_feedbacks_by_user_id calm_env three_rows "alice").2 !! "f3" = None.
Proof.
  split; [exact three_rows_wf |].
  destruct (delete_by_user calm_env three_rows "alice" three_rows_wf eq_refl)
    as [Hlookup [[Hres _] | [_ [_ Hnone]]]].
  - split; [exact Hres |].
    split; [etrans; [apply Hlookup | reflexivity] |].
    split; etrans; [apply Hlookup | reflexivity | apply Hlookup | reflexivity].
  - exfalso.
    exact (Hnone "f1" sample_row eq_refl eq_refl).
Defined.

(** X15: with the database working, the delete of all rows leaves the table
    empty; it returns [False] on an empty table and [True] otherwise. *)
Theorem delete_all env t :
  table_wf t →
  db_fault env = None →
  (delete_all_feedbacks env t).2 = ∅ ∧
  (t = ∅ → (delete_all_feedbacks env t).1 = Ok false) ∧
  (t ≠ ∅ → (delete_all_feedbacks env t).1 = Ok true).
Proof.
  intros Hwf Hdb. unfold delete_all_feedbacks.
  rewrite delete_selected_run.
  rewrite !db_raises_false by (rewrite Hdb; done). simpl.
  destruct (selected t _) as [|r l] eqn:Hsel.
  - assert (t = ∅) as ->.
    { apply map_empty. intros k. destruct (t !! k) as [r|] eqn:Hk; [|done].
      assert (r ∈ selected t (λ _, true)) as Hin
        by (apply elem_of_selected; eauto).
      rewrite Hsel in Hin. by apply elem_of_nil in Hin. }
    done.
  - rewrite <- Hsel. simpl. split; [| split; [|done]].
    + apply map_empty. intros k. rewrite delete_selected_lookup by done.
      by destruct (t !! k).
    + intros ->. unfold selected in Hsel. by rewrite map_to_list_empty in Hsel.
Qed.

Lemma delete_all_witness :
  table_wf three_rows ∧
  delete_all_feedbacks calm_env three_rows = (Ok true, ∅) ∧
  delete_all_feedbacks calm_env ∅ = (Ok false, ∅).
Proof.
  split; [exact three_rows_wf |].
  destruct (delete_all calm_env three_rows three_rows_wf eq_refl)
    as (Hempty & _ & Htrue).
  split; [| reflexivity].
  rewrite (surjective_pairing (delete_all_feedbacks calm_env three_rows)).
  rewrite Hempty, Htrue; [reflexivity |].
  intros Heq. assert (three_rows !! "f1" = None) as Hf1 by (by rewrite Heq).
  discriminate Hf1.
Defined.

(** X16: in every environment, a delete of any of the four kinds that does
    not return [True] (it returns [False], or raises at the query, at a
    [delete] or at the commit) leaves the table as it was: the rows of a
    user, or all rows, are removed together or not at all. *)
Theorem delete_all_or_nothing env t id user_id :
  ((delete_feedback_by_id env t id).1 ≠ Ok true →
   (delete_feedback_by_id env t id).2 = t) ∧
  ((delete_feedback_by_id_and_user_id env t id user_id).1 ≠ Ok true →
   (delete_feedback_by_id_and_user_id env t id user_id).2 = t) ∧
  ((delete_feedbacks_by_user_id env t user_id).1 ≠ Ok true →
   (delete_feedbacks_by_user_id env t user_id).2 = t) ∧
  ((delete_all_feedbacks env t).1 ≠ Ok true →
   (delete_all_feedbacks env t).2 = t).
Proof.
  unfold delete_feedbacks_by_user_id, delete_all_feedbacks.
  rewrite delete_by_id_and_user_id_run, delete_by_id_run, !delete_selected_run.
  destruct (db_raises env DbQuery); [done |].
  repeat split.
  - destruct (t !! id) as [r|]; [|done]. by destruct (_ || _).
  - destruct (t !! id) as [r|]; [|done].
    destruct (String.eqb _ _); [|done]. by destruct (_ || _).
  - destruct (selected t _); [done |]. by destruct (_ || _).
  - destruct (selected t _); [done |]. by destruct (_ || _).
Qed.

Lemma delete_all_or_nothing_witness :
  (delete_feedbacks_by_user_id (with_db_fault DbCommit calm_env) three_rows
     "alice").1 = Raise DBAPIError ∧
  (delete_feedbacks_by_user_id (with_db_fault DbCommit calm_env) three_rows
     "alice").2 = three_rows.
Proof.
  split; [reflexivity |].
  apply (delete_all_or_nothing (with_db_fault DbCommit calm_env) three_rows
           "f1" "alice").
  discriminate.
Defined.

(** ** Listings *)

Lemma db_raises_true_intro env c : db_fault env = Some c → db_raises env c = true.
Proof. intros H. unfold db_raises. by apply bool_decide_eq_true. Qed.

#[local] Instance updated_at_desc_total : Total updated_at_desc.
Proof. intros a b. unfold updated_at_desc. lia. Qed.

#[local] Instance updated_at_desc_trans : Transitive updated_at_desc.
Proof. intros a b c. unfold updated_at_desc. lia. Qed.

Lemma listing_run env t p :
  listing env t p =
    if db_raises env DbQuery then Raise DBAPIError
    else Ok (model_validate <$> order_by_updated_at_desc (selected t p)).
Proof.
  unfold listing, with_get_db, db_all, mbind, mret, DB_bind, DB_ret. simpl.
  by destruct (db_raises env DbQuery).
Qed.

Lemma model_validate_inj r r' : model_validate r = model_validate r' → r = r'.
Proof. destruct r, r'. by intros [= -> -> -> -> -> -> -> -> ->]. Qed.

Lemma selected_NoDup t p : table_wf t → NoDup (selected t p).
Proof.
  intros Hwf. unfold selected. apply NoDup_filter.
  apply NoDup_fmap_2_strong; [| apply NoDup_map_to_list].
  intros [k r] [k' r'] Hkr%elem_of_map_to_list Hkr'%elem_of_map_to_list.
  simpl. intros <-.
  by rewrite <- (Hwf _ _ Hkr), <- (Hwf _ _ Hkr').
Qed.

(** What a listing returns when its query goes through. *)
Lemma listing_spec env t p :
  db_fault env ≠ Some DbQuery →
  ∃ l, listing env t p = Ok l ∧
       StronglySorted listed_before l ∧
       (∀ m, m ∈ l ↔ ∃ k r, t !! k = Some r ∧ p r = true ∧ m = model_validate r) ∧
       (table_wf t → NoDup l).
Proof.
  intros Hquery. rewrite listing_run, db_raises_false by done.
  eexists. split; [done |]. unfold order_by_updated_at_desc. repeat split.
  - apply (StronglySorted_fmap _ updated_at_desc); [by intros [] [] |].
    apply StronglySorted_merge_sort; apply _.
  - intros (r & -> & Hr)%list_elem_of_fmap.
    rewrite merge_sort_Permutation in Hr.
    apply elem_of_selected in Hr as [Hp [k Hk]]. eauto.
  - intros (k & r & Hk & Hp & ->). apply list_elem_of_fmap.
    exists r. split; [done |]. rewrite merge_sort_Permutation.
    apply elem_of_selected. eauto.
  - intros Hwf. apply NoDup_fmap_2_strong.
    + intros r r' _ _. apply model_validate_inj.
    + rewrite merge_sort_Permutation. by apply selected_NoDup.
Qed.

(** X17: when the query goes through, each of the three listings returns
    the views of exactly the rows of the table that it asks for (all, those
    of a type, those of a user), ordered so that no view comes before one
    updated later; on a table whose rows are stored under their identifiers
    no view comes twice. *)
Theorem listings_sorted_and_exact env t :
  db_fault env ≠ Some DbQuery →
  (∃ l, get_all_feedbacks env t = Ok l ∧
        StronglySorted listed_before l ∧
        (∀ m, m ∈ l ↔ ∃ k r, t !! k = Some r ∧ m = model_validate r) ∧
        (table_wf t → NoDup l)) ∧
  (∀ ty, ∃ l, get_feedbacks_by_type env t ty = Ok l ∧
              StronglySorted listed_before l ∧
              (∀ m, m ∈ l ↔ ∃ k r, t !! k = Some r ∧ f_type r = ty ∧
                                    m = model_validate r) ∧
              (table_wf t → NoDup l)) ∧
  (∀ u, ∃ l, get_feedbacks_by_user_id env t u = Ok l ∧
             StronglySorted listed_before l ∧
             (∀ m, m ∈ l ↔ ∃ k r, t !! k = Some r ∧ f_user_id r = u ∧
                                   m = model_validate r) ∧
             (table_wf t → NoDup l)).
Proof.
  intros Hquery. split; [| split].
  - destruct (listing_spec env t (λ _, true) Hquery) as (l & Hl & Hs & Hin & Hnd).
    exists l. repeat split; try done.
    + intros (k & r & Hk & _ & ->)%Hin. eauto.
    + intros (k & r & Hk & ->). apply Hin. eauto.
  - intros ty.
    destruct (listing_spec env t (λ r, String.eqb (f_type r) ty) Hquery)
      as (l & Hl & Hs & Hin & Hnd).
    exists l. repeat split; try done.
    + intros (k & r & Hk & Hp%String.eqb_eq & ->)%Hin. eauto.
    + intros (k & r & Hk & Hp%String.eqb_eq & ->). apply Hin. eauto 6.
  - intros u.
    destruct (listing_spec env t (λ r, String.eqb (f_user_id r) u) Hquery)
      as (l & Hl & Hs & Hin & Hnd).
    exists l. repeat split; try done.
    + intros (k & r & Hk & Hp%String.eqb_eq & ->)%Hin. eauto.
    + intros (k & r & Hk & Hp%String.eqb_eq & ->). apply Hin. eauto 6.
Qed.

Lemma listings_sorted_and_exact_witness :
  db_fault calm_env ≠ Some DbQuery ∧
  get_feedbacks_by_user_id calm_env three_rows "alice"
    = Ok [model_validate later_row; model_validate sample_row] ∧
  ∃ l, get_all_feedbacks calm_env three_rows = Ok l ∧
       StronglySorted listed_before l.
Proof.
  assert (db_fault calm_env ≠ Some DbQuery) as Hquery by discriminate.
  split; [exact Hquery |]. split; [reflexivity |].
  destruct (listings_sorted_and_exact calm_env three_rows Hquery)
    as ((l & Hl & Hs & _) & _).
  exists l. split; [exact Hl | exact Hs].
Defined.

(** X18: when the query raises, the two reads by identifier return [None],
    as they do for a record that is not there, while the three listings let
    the exception leave. *)
Theorem reads_on_query_failure env t id user_id ty :
  db_fault env = Some DbQuery →
  get_feedback_by_id env t id = None ∧
  get_feedback_by_id_and_user_id env t id user_id = None ∧
  get_all_feedbacks env t = Raise DBAPIError ∧
  get_feedbacks_by_type env t ty = Raise DBAPIError ∧
  get_feedbacks_by_user_id env t user_id = Raise DBAPIError.
Proof.
  intros Hquery%db_raises_true_intro.
  unfold get_all_feedbacks, get_feedbacks_by_type, get_feedbacks_by_user_id.
  rewrite !listing_run, Hquery.
  unfold get_feedback_by_id, get_feedback_by_id_and_user_id, with_get_db,
    db_first_by_id, db_first_by_id_and_user_id.
  by rewrite Hquery.
Qed.

Lemma reads_on_query_failure_witness :
  db_fault (with_db_fault DbQuery calm_env) = Some DbQuery ∧
  get_feedback_by_id (with_db_fault DbQuery calm_env) three_rows "f1" = None ∧
  get_feedback_by_id calm_env three_rows "f1" = Some (model_validate sample_row) ∧
  get_all_feedbacks (with_db_fault DbQuery calm_env) three_rows = Raise DBAPIError.
Proof.
  split; [reflexivity |].
  destruct (reads_on_query_failure (with_db_fault DbQuery calm_env) three_rows
              "f1" "alice" "rating" eq_refl) as (Hid & _ & Hall & _).
  split; [exact Hid |]. split; [reflexivity | exact Hall].
Defined.

(** ** Invariants, further *)

(** X19: on a table reachable from the empty one, a read by identifier that
    returns a view returns one with the identifier asked for, and the read
    scoped to a user one with that user as its owner, too. *)
Theorem read_returns_what_was_asked env t id user_id m :
  reachable t →
  (get_feedback_by_id env t id = Some m → m_id m = id) ∧
  (get_feedback_by_id_and_user_id env t id user_id = Some m →
   m_id m = id ∧ m_user_id m = user_id).
Proof.
  intros Hwf%reachable_wf.
  unfold get_feedback_by_id, get_feedback_by_id_and_user_id, with_get_db,
    db_first_by_id, db_first_by_id_and_user_id. simpl.
  destruct (db_raises env DbQuery); [done |].
  destruct (t !! id) as [r|] eqn:Hid; [|done].
  pose proof (Hwf _ _ Hid) as Hkey. split.
  - by intros [= <-].
  - destruct (String.eqb (f_user_id r) user_id) eqn:Hu; [|done].
    apply String.eqb_eq in Hu. by intros [= <-].
Qed.

Lemma read_returns_what_was_asked_witness :
  reachable (table_after (insert_new_feedback calm_env ∅ "alice"
                            impersonating_form)) ∧
  ∃ m, get_feedback_by_id calm_env
         (table_after (insert_new_feedback calm_env ∅ "alice"
                         impersonating_form)) "f9" = Some m ∧
       m_id m = "f9".
Proof.
  assert (reachable (table_after (insert_new_feedback calm_env ∅ "alice"
                                    impersonating_form))) as Hreach
    by apply reach_insert, reach_empty.
  split; [exact Hreach |].
  eexists. split; [reflexivity |].
  exact (proj1 (read_returns_what_was_asked calm_env _ "f9" "alice" _ Hreach)
           eq_refl).
Defined.

Lemma same_identity_refl r : same_identity r r.
Proof. by repeat split. Qed.

Lemma no_new_rows_refl t : no_new_rows t t.
Proof. intros k r Hk. exists r. split; [done | apply same_identity_refl]. Qed.

Lemma no_new_rows_delete_rows t l : no_new_rows t (delete_rows t l).
Proof.
  intros k r'. rewrite delete_rows_lookup. case_decide; [done |].
  intros Hk. exists r'. split; [done | apply same_identity_refl].
Qed.

(** X20: on a table whose rows are stored under their identifiers, and in
    every environment, no update and no delete adds a row, and each row that
    is left has the identifier, owner, version, type and time of creation it
    had before. *)
Theorem update_delete_add_nothing env t id user_id form_data :
  table_wf t →
  no_new_rows t (update_feedback_by_id env t id form_data).2 ∧
  no_new_rows t (update_feedback_by_id_and_user_id env t id user_id form_data).2 ∧
  no_new_rows t (delete_feedback_by_id env t id).2 ∧
  no_new_rows t (delete_feedback_by_id_and_user_id env t id user_id).2 ∧
  no_new_rows t (delete_feedbacks_by_user_id env t user_id).2 ∧
  no_new_rows t (delete_all_feedbacks env t).2.
Proof.
  intros Hwf.
  assert (∀ r, t !! id = Some r →
               no_new_rows t (<[id := assign_form env form_data r]> t)) as Hupd.
  { intros r Hid k r'. rewrite lookup_insert. case_decide as Hk.
    - subst k. intros [= <-]. exists r. split; [done |].
      destruct (assign_form_frame env form_data r) as (? & ? & ? & ? & ? & _).
      by repeat split.
    - intros Hk'. exists r'. split; [done | apply same_identity_refl]. }
  assert (∀ k, no_new_rows t (delete k t)) as Hdel.
  { intros k k' r'. rewrite lookup_delete. case_decide; [done |].
    intros Hk'. exists r'. split; [done | apply same_identity_refl]. }
  assert (∀ p, no_new_rows t
                 (with_get_db t (feedbacks ← db_all env p;
                                 delete_listed env feedbacks)).2) as Hsel.
  { intros p. rewrite delete_selected_run.
    destruct (db_raises env DbQuery); [apply no_new_rows_refl |].
    destruct (selected t p) as [|r l] eqn:Hp; [apply no_new_rows_refl |].
    destruct (_ || _); [apply no_new_rows_refl |].
    rewrite <- Hp. apply no_new_rows_delete_rows. }
  destruct (update_table_cases env t id user_id form_data Hwf) as [Hu1 Hu2].
  split; [| split; [| split; [| split; [| split]]]].
  - destruct Hu1 as [-> | (r & Hr & _ & ->)];
      [apply no_new_rows_refl | by apply Hupd].
  - destruct Hu2 as [-> | (r & Hr & _ & ->)];
      [apply no_new_rows_refl | by apply Hupd].
  - rewrite delete_by_id_run.
    destruct (db_raises env DbQuery); [apply no_new_rows_refl |].
    destruct (t !! id); [| apply no_new_rows_refl].
    destruct (_ || _); [apply no_new_rows_refl | apply Hdel].
  - rewrite delete_by_id_and_user_id_run, delete_by_id_run.
    destruct (db_raises env DbQuery); [apply no_new_rows_refl |].
    destruct (t !! id); [| apply no_new_rows_refl].
    destruct (String.eqb _ _); [| apply no_new_rows_refl].
    destruct (_ || _); [apply no_new_rows_refl | apply Hdel].
  - apply Hsel.
  - apply Hsel.
Qed.

Lemma update_delete_add_nothing_witness :
  table_wf three_rows ∧
  ∃ r, (update_feedback_by_id calm_env three_rows "f2" versioned_form).2 !! "f2"
       = Some r ∧
       f_version r = f_version bob_row ∧ f_type r = f_type bob_row.
Proof.
  split; [exact three_rows_wf |].
  destruct (update_delete_add_nothing calm_env three_rows "f2" "bob"
              versioned_form three_rows_wf) as (Hupd & _).
  eexists. split; [reflexivity |].
  edestruct (Hupd "f2") as (r & Hr & _ & _ & Hv & Hty & _); [reflexivity |].
  injection Hr as <-. split; [exact Hv | exact Hty].
Defined.

(** ** Operations, one after the other *)

(** Validation raises nothing but [ValidationError]. *)
Lemma FeedbackModel_init_Raise env kw e :
  FeedbackModel_init env kw = Raise e → e = ValidationError.
Proof.
  assert (∀ k e', field_str k kw = Raise e' → e' = ValidationError) as Hstr.
  { intros k e'. unfold field_str.
    destruct (dict_get k kw) as [[]|]; congruence. }
  assert (∀ k e', field_int env k kw = Raise e' → e' = ValidationError) as Hint.
  { intros k e'. unfold field_int.
    destruct (dict_get k kw) as [[| | |s| |]|]; try congruence.
    destruct (str_as_int env s); congruence. }
  assert (∀ k e', field_opt_dict k kw = Raise e' → e' = ValidationError) as Hopt.
  { intros k e'. unfold field_opt_dict.
    destruct (dict_get k kw) as [[]|]; congruence. }
  unfold FeedbackModel_init.
  destruct (field_str "id" kw) eqn:H1; simpl; [| intros [= <-]; eauto].
  destruct (field_str "user_id" kw) eqn:H2; simpl; [| intros [= <-]; eauto].
  destruct (field_int env "version" kw) eqn:H3; simpl; [| intros [= <-]; eauto].
  destruct (field_str "type" kw) eqn:H4; simpl; [| intros [= <-]; eauto].
  destruct (field_opt_dict "data" kw) eqn:H5; simpl; [| intros [= <-]; eauto].
  destruct (field_opt_dict "meta" kw) eqn:H6; simpl; [| intros [= <-]; eauto].
  destruct (field_opt_dict "snapshot" kw) eqn:H7; simpl; [| intros [= <-]; eauto].
  destruct (field_int env "created_at" kw) eqn:H8; simpl; [| intros [= <-]; eauto].
  destruct (field_int env "updated_at" kw) eqn:H9; simpl; [| intros [= <-]; eauto].
  done.
Qed.

(** X21: an extra item of the form named [id] or [user_id] whose value is not
    a string makes the create raise [ValidationError]: the view is built
    before the [try], so the exception leaves the method; nothing is stored
    and no sink is called. *)
Theorem insert_ill_typed_extra_raises env t user_id form_data k v :
  k = "id" ∨ k = "user_id" →
  NoDup (extra form_data).*1 →
  dict_get k (extra form_data) = Some v →
  (∀ s, v ≠ JStr s) →
  insert_new_feedback env t user_id form_data =
    {| returned := Raise ValidationError; table_after := t; add_text_calls := [] |}.
Proof.
  intros Hk Hnd Hget Hv.
  assert (dict_get k (new_feedback_kwargs env user_id form_data) = Some v) as Hkw.
  { rewrite new_feedback_kwargs_overridable
      by (destruct Hk as [-> | ->]; apply (bool_decide_unpack _); by vm_compute).
    by rewrite (FeedbackForm_model_dump_extra _ _ _ Hnd Hget). }
  assert (field_str k (new_feedback_kwargs env user_id form_data)
          = Raise ValidationError) as Hfield.
  { unfold field_str. rewrite Hkw. destruct v; try done. by destruct (Hv s). }
  unfold insert_new_feedback.
  destruct (FeedbackModel_init _ _) as [feedback | e] eqn:Hinit.
  - apply FeedbackModel_init_Ok in Hinit as (Hid & Hu & _).
    destruct Hk as [-> | ->]; congruence.
  - by rewrite (FeedbackModel_init_Raise _ _ _ Hinit).
Qed.

Lemma insert_ill_typed_extra_raises_witness :
  returned (insert_new_feedback calm_env sample_table "alice"
              {| type := "rating"; data := None; meta := None; snapshot := None;
                 extra := [("id", JNum 5)] |}) = Raise ValidationError.
Proof.
  rewrite (insert_ill_typed_extra_raises calm_env sample_table "alice" _ "id"
             (JNum 5));
    [reflexivity | by left | apply (bool_decide_unpack _); by vm_compute
    | reflexivity | discriminate].
Defined.

(** X22: the view that an update returns is the one that the read by the
    identifier returns afterwards, the query going through, on a table whose
    rows are stored under their identifiers. *)
Theorem update_then_read env env' t id user_id form_data m :
  table_wf t →
  db_fault env' ≠ Some DbQuery →
  ((update_feedback_by_id env t id form_data).1 = Ok (Some m) →
   get_feedback_by_id env' (update_feedback_by_id env t id form_data).2 id
     = Some m) ∧
  ((update_feedback_by_id_and_user_id env t id user_id form_data).1
     = Ok (Some m) →
   get_feedback_by_id_and_user_id env'
     (update_feedback_by_id_and_user_id env t id user_id form_data).2 id user_id
     = Some m).
Proof.
  intros Hwf Hquery.
  unfold get_feedback_by_id, get_feedback_by_id_and_user_id, with_get_db,
    db_first_by_id, db_first_by_id_and_user_id. simpl.
  rewrite db_raises_false by done.
  destruct (decide (is_Some (t !! id))) as [[r Hid] | Hid%eq_None_not_Some].
  - pose proof (Hwf _ _ Hid) as Hkey. subst id.
    destruct (assign_form_frame env form_data r) as (_ & Hu & _).
    rewrite update_by_id_and_user_id_stored, update_by_id_stored by exact Hid.
    split.
    + destruct (db_fault env) as [[]|]; simpl; try done;
        intros [= <-]; by rewrite lookup_insert_eq.
    + destruct (db_fault env) as [[]|]; simpl; try done;
        destruct (String.eqb (f_user_id r) user_id) eqn:E; simpl; try done;
        intros [= <-]; rewrite lookup_insert_eq; by rewrite Hu, E.
  - destruct (update_absent_run env t id user_id form_data Hid) as [-> ->].
    simpl. by destruct (db_raises env DbQuery).
Qed.

Lemma update_then_read_witness :
  table_wf three_rows ∧
  ∃ m, (update_feedback_by_id ticking_env three_rows "f2" retyped_form).1
       = Ok (Some m) ∧
       get_feedback_by_id calm_env
         (update_feedback_by_id ticking_env three_rows "f2" retyped_form).2 "f2"
       = Some m.
Proof.
  split; [exact three_rows_wf |].
  eexists. split; [reflexivity |].
  assert (db_fault calm_env ≠ Some DbQuery) as Hquery by discriminate.
  exact (proj1 (update_then_read ticking_env calm_env three_rows "f2" "bob"
                  retyped_form _ three_rows_wf Hquery) eq_refl).
Defined.

(** X23: the delete, the database working, of the record that a create has
    just returned gives [True] and the table that the create found. *)
Theorem insert_then_delete env env' t user_id form_data m :
  returned (insert_new_feedback env t user_id form_data) = Ok (Some m) →
  db_fault env' = None →
  delete_feedback_by_id env'
    (table_after (insert_new_feedback env t user_id form_data)) (m_id m)
    = (Ok true, t).
Proof.
  intros [Hfresh ->]%insert_returned_table Hdb.
  rewrite delete_by_id_run.
  rewrite !db_raises_false by (rewrite Hdb; done).
  rewrite lookup_insert_eq. simpl.
  by rewrite delete_insert_id.
Qed.

Lemma insert_then_delete_witness :
  ∃ m, returned (insert_new_feedback calm_env three_rows "carol" numeric_form)
       = Ok (Some m) ∧
       delete_feedback_by_id calm_env
         (table_after (insert_new_feedback calm_env three_rows "carol"
                         numeric_form)) (uuid4 calm_env)
       = (Ok true, three_rows).
Proof.
  eexists. split; [reflexivity |].
  exact (insert_then_delete calm_env calm_env three_rows "carol" numeric_form _
           eq_refl eq_refl).
Defined.
